(** * github-pr-resource: the GitHub data-access layer

    A shallow embedding of [models.go] (Source, Validate, Version,
    NewVersion and the GraphQL record types) and of the GitHub client
    (NewGithubClient, SearchPullRequests, GetChangedFiles, GetPullRequest,
    UpdateCommitStatus, DeletePreviousComments, parseRepository).

    Go strings are byte strings ([string]); [int] is a 64-bit integer
    carried by [Z]; [map[string]interface{}] is a [gmap string value];
    a Go multiple return [(T, error)] is a pair whose error component is
    [None] for [nil].  The remote service is reached only through the
    client objects [V3] and [V4]; every call made through them is appended
    to a call history, which is the state threaded through the operations. *)

From Stdlib Require Import ZArith Lia Ascii String DecimalString.
From Stdlib Require DecimalPos DecimalZ.
From stdpp Require Import base numbers list strings gmap.

Local Open Scope Z_scope.

(** ** Strings *)

Module Str.

(** The double-quote byte (34), spelled by its code. *)
Definition dquote : ascii := "034"%char.

Definition is_empty (s : string) : bool :=
  match s with EmptyString => true | String _ _ => false end.

Fixpoint count (c : ascii) (s : string) : nat :=
  match s with
  | EmptyString => O
  | String d s' => (if Ascii.eqb d c then 1 else 0)%nat + count c s'
  end.

(** [contains s sub]: [sub] occurs in [s] as a contiguous run of bytes. *)
Fixpoint contains (s sub : string) : bool :=
  String.prefix sub s ||
  match s with
  | EmptyString => false
  | String _ s' => contains s' sub
  end.

End Str.

(** ** package strings, fmt, strconv, path: the functions the client calls *)

(** [strings.Split(s, sep)] for a non-empty separator: the pieces between
    the leftmost non-overlapping occurrences of [sep].  [skip] counts the
    bytes of a matched separator still to be passed over. *)
Fixpoint Split_from (sep s : string) (skip : nat) : list string :=
  match s with
  | EmptyString => [""]
  | String c s' =>
      match skip with
      | S k => Split_from sep s' k
      | O =>
          if String.prefix sep s
          then "" :: Split_from sep s' (String.length sep - 1)
          else match Split_from sep s' 0 with
               | piece :: pieces => String c piece :: pieces
               | [] => [String c ""]
               end
      end
  end.

Definition strings_Split (s sep : string) : list string := Split_from sep s 0.

(** [strings.Join(elems, sep)]. *)
Fixpoint strings_Join (elems : list string) (sep : string) : string :=
  match elems with
  | [] => ""
  | [e] => e
  | e :: rest => e +:+ sep +:+ strings_Join rest sep
  end.

(** [fmt.Sprintf(format, arg)] for a format with one [%s] verb and a string
    operand: the operand's bytes replace the verb. *)
Fixpoint Sprintf (format arg : string) : string :=
  match format with
  | String "%" (String "s" rest) => arg +:+ rest
  | String c rest => String c (Sprintf rest arg)
  | EmptyString => ""
  end.

(** ** Errors *)

Inductive NumErr := ErrSyntax | ErrRange.

(** A Go [error] value, by the call that made it. *)
Inductive error : Type :=
| errors_New (text : string)
| fmt_Errorf (format : string) (a : operand)
| strconv_NumError (Func Num : string) (Err : NumErr)
| library_error (text : string)   (* made inside net/url, go-github or githubv4 *)
with operand : Type :=
| op_string (s : string)
| op_error (e : error).

(** [strconv.Itoa]: the decimal digits of [n], with a leading [-] below 0. *)
Definition Itoa (n : Z) : string := NilZero.string_of_int (Z.to_int n).

(** The integer a string denotes in decimal notation. *)
Definition decimal_value (s : string) : option Z :=
  option_map Z.of_int (NilZero.int_of_string s).

Definition maxInt64 : Z := 2 ^ 63 - 1.
Definition minInt64 : Z := - 2 ^ 63.

(** [strconv.Atoi]: an optional sign and one or more decimal digits; a value
    outside [int] comes back clamped, next to a range error. *)
Definition Atoi (s : string) : Z * option error :=
  let '(neg, digits) :=
    match s with
    | String "-" r => (true, r)
    | String "+" r => (false, r)
    | _ => (false, s)
    end in
  match NilZero.uint_of_string digits with
  | None => (0, Some (strconv_NumError "Atoi" s ErrSyntax))
  | Some u =>
      let n := if neg : bool then - Z.of_uint u else Z.of_uint u in
      if maxInt64 <? n then (maxInt64, Some (strconv_NumError "Atoi" s ErrRange))
      else if n <? minInt64 then (minInt64, Some (strconv_NumError "Atoi" s ErrRange))
      else (n, None)
  end.

(** ** models.go *)

(** [githubv4.PullRequestState] is a string type. *)
Abbreviation PullRequestState := string (only parsing).
Definition PullRequestStateOpen : PullRequestState := "OPEN".
Definition PullRequestStateClosed : PullRequestState := "CLOSED".
Definition PullRequestStateMerged : PullRequestState := "MERGED".

(** [time.Time] and its wrapper [githubv4.DateTime]. *)
Module Time.
Record t := { wall : Z; ext : Z; loc : option Z }.
Definition zero : t := {| wall := 0; ext := 0; loc := None |}.
End Time.

Module DateTime.
Record t := { Time : Time.t }.
Definition zero : t := {| Time := Time.zero |}.
End DateTime.

Module Source.
Record t := {
  Repository : string;
  AccessToken : string;
  V3Endpoint : string;
  V4Endpoint : string;
  Paths : list string;
  IgnorePaths : list string;
  DisableCISkip : bool;
  DisableGitLFS : bool;
  SkipSSLVerification : bool;
  DisableForks : bool;
  IgnoreDrafts : bool;
  GitCryptKey : string;
  BaseBranch : string;
  RequiredReviewApprovals : Z;
  Labels : list string;
  States : list PullRequestState
}.
End Source.

Definition states_format : string :=
  "states value " +:+ String Str.dquote ("%s" +:+
  String Str.dquote " must be one of: OPEN, MERGED, CLOSED").

(** The three literals the [switch] of [Validate] lets through. *)
Definition valid_state (state : PullRequestState) : Prop :=
  state = PullRequestStateOpen \/ state = PullRequestStateClosed \/
  state = PullRequestStateMerged.

(** The [for _, state := range s.States] loop of [Validate]. *)
Fixpoint Validate_states (states : list PullRequestState) : option error :=
  match states with
  | [] => None
  | state :: rest =>
      if String.eqb state PullRequestStateOpen then Validate_states rest
      else if String.eqb state PullRequestStateClosed then Validate_states rest
      else if String.eqb state PullRequestStateMerged then Validate_states rest
      else Some (errors_New (Sprintf states_format state))
  end.

(** [func (s *Source) Validate() error]: the receiver is a pointer, so the
  Source after the call is returned next to the error. *)
Definition Validate (s : Source.t) : Source.t * option error :=
  if Str.is_empty (Source.AccessToken s) then
  (s, Some (errors_New "access_token must be set"))
  else if Str.is_empty (Source.Repository s) then
  (s, Some (errors_New "repository must be set"))
  else if negb (Str.is_empty (Source.V3Endpoint s))
          && Str.is_empty (Source.V4Endpoint s) then
  (s, Some (errors_New "v4_endpoint must be set together with v3_endpoint"))
  else if negb (Str.is_empty (Source.V4Endpoint s))
          && Str.is_empty (Source.V3Endpoint s) then
  (s, Some (errors_New "v3_endpoint must be set together with v4_endpoint"))
  else (s, Validate_states (Source.States s)).

Module PullRequestObject.
Record t := {
  ID : string;
  Number : Z;
  Title : string;
  URL : string;
  BaseRefName : string;
  HeadRefName : string;
  Repository_URL : string;
  IsCrossRepository : bool;
  IsDraft : bool;
  State : PullRequestState;
  UpdatedAt : DateTime.t
}.
End PullRequestObject.

Module CommitObject.
Record t := {
  ID : string;
  OID : string;
  CommittedDate : DateTime.t;
  Message : string;
  Author_User_Login : string;
  Author_Email : string
}.
End CommitObject.

Module ChangedFileObject.
Record t := { Path : string }.
End ChangedFileObject.

Module LabelObject.
Record t := { Name : string }.
Definition zero : t := {| Name := "" |}.
End LabelObject.

Module PullRequest.
Record t := {
  PullRequestObject : PullRequestObject.t;
  Tip : CommitObject.t;
  ApprovedReviewCount : Z;
  Labels : list LabelObject.t
}.
End PullRequest.

Module Version.
Record t := {
  PR : string;
  Commit : string;
  UpdatedTime : Time.t;
  ApprovedReviewCount : string;
  State : PullRequestState
}.
End Version.

Definition NewVersion (p : PullRequest.t) : Version.t :=
  {| Version.PR := Itoa (PullRequestObject.Number (PullRequest.PullRequestObject p));
     Version.Commit := CommitObject.OID (PullRequest.Tip p);
     Version.UpdatedTime :=
       DateTime.Time (PullRequestObject.UpdatedAt (PullRequest.PullRequestObject p));
     Version.ApprovedReviewCount := Itoa (PullRequest.ApprovedReviewCount p);
     Version.State := PullRequestObject.State (PullRequest.PullRequestObject p) |}.

(** ** The GitHub client *)

(** Values of the [map[string]interface{}] of query variables. *)
Inductive value :=
| githubv4_String (s : string)
| Int32 (n : Z)
| PullRequestReviewStates (l : list string).

(** [githubv4.Int] is an [int32]: the conversion from [int] wraps around. *)
Definition githubv4_Int (n : Z) : value :=
  Int32 ((n + 2 ^ 31) mod 2 ^ 32 - 2 ^ 31).

Definition PullRequestReviewStateApproved : string := "APPROVED".

(** The query structs handed to [V4.Query], one per call site. *)
Inductive Query := search_query | file_query | pull_request_query | comments_query.

(** The [graphql:"field(argument:$variable,...)"] tags of each query struct:
    per field, the variable each argument is bound to. *)
Definition graphql (q : Query) : list (string * list (string * string)) :=
  match q with
  | search_query =>
      [("search", [("query", "searchQuery"); ("first", "searchFirst")]);
       ("commits", [("last", "commitsLast")]);
       ("labels", [("first", "labelsFirst")])]
  | file_query =>
      [("files", [("first", "changedFilesFirst"); ("after", "changedFilesEndCursor")]);
       ("pullRequest", [("number", "prNumber")]);
       ("repository", [("owner", "repositoryOwner"); ("name", "repositoryName")])]
  | pull_request_query =>
      [("commits", [("last", "commitsLast")]);
       ("pullRequest", [("number", "prNumber")]);
       ("repository", [("owner", "repositoryOwner"); ("name", "repositoryName")])]
  | comments_query =>
      [("comments", [("last", "commentsLast")]);
       ("pullRequest", [("number", "prNumber")]);
       ("repository", [("owner", "repositoryOwner"); ("name", "repositoryName")])]
  end.

Fixpoint assoc {A} (k : string) (l : list (string * A)) : option A :=
  match l with
  | [] => None
  | (k', v) :: l' => if String.eqb k k' then Some v else assoc k l'
  end.

(** The value a query document passes for [argument] of [field]: the
    variable the tag binds it to, looked up in [vars]; [None] when the tag
    has no such argument. *)
Definition argument (q : Query) (field arg : string)
    (vars : gmap string value) : option value :=
  match assoc field (graphql q) with
  | Some args =>
      match assoc arg args with
      | Some variable => vars !! variable
      | None => None
      end
  | None => None
  end.

Module PageInfo.
Record t := { EndCursor : string; HasNextPage : bool }.
End PageInfo.

(** An element of [query.Search.Nodes]: the [... on PullRequest] fragment. *)
Module SearchNode.
Record t := {
  PullRequestObject : PullRequestObject.t;
  Reviews_TotalCount : Z;
  Commits_Edges : list CommitObject.t;
  Labels_Edges : list LabelObject.t
}.
End SearchNode.

Module SearchQuery.
Record t := {
  Search_Nodes : list SearchNode.t;
  Search_PageInfo : PageInfo.t
}.
End SearchQuery.

Module FileQuery.
Record t := {
  Files_Edges : list ChangedFileObject.t;
  Files_PageInfo : PageInfo.t
}.
End FileQuery.

Module PullRequestQuery.
Record t := {
  PullRequestObject : PullRequestObject.t;
  Commits_Edges : list CommitObject.t
}.
End PullRequestQuery.

Module CommentEdge.
Record t := { DatabaseId : Z; Author_Login : string }.
End CommentEdge.

Module CommentsQuery.
Record t := {
  Viewer_Login : string;
  PullRequest_Id : string;
  Comments_Edges : list CommentEdge.t
}.
End CommentsQuery.

(** [github.RepoStatus], the fields [UpdateCommitStatus] sets. *)
Module RepoStatus.
Record t := {
  State : string;
  TargetURL : string;
  Description : string;
  Context : string
}.
End RepoStatus.

(** A call made through one of the two clients. *)
Inductive Call :=
| V4_Query (q : Query) (vars : gmap string value)
| V3_Repositories_CreateStatus (owner repo ref : string) (status : RepoStatus.t)
| V3_Issues_DeleteComment (owner repo : string) (commentID : Z).

(** The GraphQL client.  [Query] decodes the answer into the struct it is
    given, so there is one entry per query struct; each sees the calls made
    so far and the variables, and answers with the decoded struct or with
    the text of the library's error. *)
Module V4Client.
Record t := {
  Query_search : list Call -> gmap string value -> string + SearchQuery.t;
  Query_files : list Call -> gmap string value -> string + FileQuery.t;
  Query_pull_request : list Call -> gmap string value -> string + PullRequestQuery.t;
  Query_comments : list Call -> gmap string value -> string + CommentsQuery.t
}.
End V4Client.

(** The REST client: the two services the operations below call. *)
Module V3Client.
Record t := {
  Repositories_CreateStatus :
    list Call -> string -> string -> string -> RepoStatus.t -> option string;
  Issues_DeleteComment :
    list Call -> string -> string -> Z -> option string
}.
End V3Client.

Module GithubClient.
Record t := {
  V3 : V3Client.t;
  V4 : V4Client.t;
  Repository : string;
  Owner : string
}.
End GithubClient.

(** The [oauth2] HTTP client: the static token, and whether the transport
    skips certificate verification. *)
Module HttpClient.
Record t := { AccessToken : string; InsecureSkipVerify : bool }.
End HttpClient.

Definition parseRepository (s : string) : string * string * option error :=
  let parts := strings_Split s "/" in
  if negb (Nat.eqb (length parts) 2) then
    ("", "", Some (errors_New "malformed repository"))
  else (nth 0 parts "", nth 1 parts "", None).

Section Construction.

(** The constructors of the imported packages.  [url_Parse] gives the
    parsed endpoint's [String()], or the text of the parse error. *)
Variable url_Parse : string -> string + string.
Variable github_NewClient : HttpClient.t -> V3Client.t.
Variable github_NewEnterpriseClient :
  string -> string -> HttpClient.t -> string + V3Client.t.
Variable githubv4_NewClient : HttpClient.t -> V4Client.t.
Variable githubv4_NewEnterpriseClient : string -> HttpClient.t -> V4Client.t.

Definition NewGithubClient (s : Source.t) : option GithubClient.t * option error :=
  match parseRepository (Source.Repository s) with
  | (_, _, Some err) => (None, Some err)
  | (owner, repository, None) =>
      let client :=
        {| HttpClient.AccessToken := Source.AccessToken s;
           HttpClient.InsecureSkipVerify := Source.SkipSSLVerification s |} in
      let v3 : error + V3Client.t :=
        if negb (Str.is_empty (Source.V3Endpoint s)) then
          match url_Parse (Source.V3Endpoint s) with
          | inl err =>
              inl (fmt_Errorf "failed to parse v3 endpoint: %s"
                     (op_error (library_error err)))
          | inr endpoint =>
              match github_NewEnterpriseClient endpoint endpoint client with
              | inl err => inl (library_error err)
              | inr c => inr c
              end
          end
        else inr (github_NewClient client) in
      match v3 with
      | inl err => (None, Some err)
      | inr v3 =>
          let v4 : error + V4Client.t :=
            if negb (Str.is_empty (Source.V4Endpoint s)) then
              match url_Parse (Source.V4Endpoint s) with
              | inl err =>
                  inl (fmt_Errorf "failed to parse v4 endpoint: %s"
                         (op_error (library_error err)))
              | inr endpoint => inr (githubv4_NewEnterpriseClient endpoint client)
              end
            else inr (githubv4_NewClient client) in
          match v4 with
          | inl err => (None, Some err)
          | inr v4 =>
              (Some {| GithubClient.V3 := v3; GithubClient.V4 := v4;
                       GithubClient.Owner := owner;
                       GithubClient.Repository := repository |}, None)
          end
      end
  end.

End Construction.

(** *** SearchPullRequests *)

(** Lines 148-151: [labels := make([]LabelObject, len(edges))], then one
    [append] per label edge. *)
Definition search_labels (p : SearchNode.t) : list LabelObject.t :=
  fold_left (fun labels l => labels ++ [l])
    (SearchNode.Labels_Edges p)
    (replicate (length (SearchNode.Labels_Edges p)) LabelObject.zero).

(** Lines 147-160: the body of the loop over [query.Search.Nodes]. *)
Definition search_node (response : list PullRequest.t) (p : SearchNode.t)
    : list PullRequest.t :=
  let labels := search_labels p in
  fold_left
    (fun response c =>
       response ++
       [{| PullRequest.PullRequestObject := SearchNode.PullRequestObject p;
           PullRequest.Tip := c;
           PullRequest.ApprovedReviewCount := SearchNode.Reviews_TotalCount p;
           PullRequest.Labels := labels |}])
    (SearchNode.Commits_Edges p) response.

Definition search_vars (query : string) (limit : Z) : gmap string value :=
  list_to_map
    [("searchQuery", githubv4_String query);
     ("searchFirst", githubv4_Int limit);
     ("commitsLast", githubv4_Int 1);
     ("prReviewStates", PullRequestReviewStates [PullRequestReviewStateApproved]);
     ("labelsFirst", githubv4_Int 100)].

(** The [for] loop of lines 142-166; [fuel] bounds the number of iterations
    and [None] means the bound was reached before the loop left.  The
    source spells the page information [query.Repository.PullRequests.PageInfo]
    and the node [p.Node]; the query struct declares them as
    [query.Search.PageInfo] and [node.PullRequest], which is what is read. *)
Fixpoint SearchPullRequests_loop (fuel : nat) (m : GithubClient.t)
    (vars : gmap string value) (response : list PullRequest.t) (h : list Call)
    : option (list Call * (list PullRequest.t * option error)) :=
  match fuel with
  | O => None
  | S fuel' =>
      let h1 := h ++ [V4_Query search_query vars] in
      match V4Client.Query_search (GithubClient.V4 m) h vars with
      | inl err => Some (h1, ([], Some (library_error err)))
      | inr query =>
          let response := fold_left search_node (SearchQuery.Search_Nodes query) response in
          if negb (PageInfo.HasNextPage (SearchQuery.Search_PageInfo query)) then
            Some (h1, (response, None))
          else
            SearchPullRequests_loop fuel' m
              (<["prCursor" :=
                   githubv4_String (PageInfo.EndCursor (SearchQuery.Search_PageInfo query))]> vars)
              response h1
      end
  end.

Definition SearchPullRequests (fuel : nat) (m : GithubClient.t)
    (query : string) (limit : Z) (h : list Call)
    : option (list Call * (list PullRequest.t * option error)) :=
  SearchPullRequests_loop fuel m (search_vars query limit) [] h.

(** *** GetChangedFiles *)

Definition files_vars (m : GithubClient.t) (pr : Z) (offset : string)
    : gmap string value :=
  list_to_map
    [("repositoryOwner", githubv4_String (GithubClient.Owner m));
     ("repositoryName", githubv4_String (GithubClient.Repository m));
     ("prNumber", githubv4_Int pr);
     ("changedFilesFirst", githubv4_Int 100);
     ("changedFilesEndCursor", githubv4_String offset)].

(** The [for] loop of lines 247-269, bounded by [fuel]. *)
Fixpoint GetChangedFiles_loop (fuel : nat) (m : GithubClient.t) (pr : Z)
    (offset : string) (cfo : list ChangedFileObject.t) (h : list Call)
    : option (list Call * (list ChangedFileObject.t * option error)) :=
  match fuel with
  | O => None
  | S fuel' =>
      let vars := files_vars m pr offset in
      let h1 := h ++ [V4_Query file_query vars] in
      match V4Client.Query_files (GithubClient.V4 m) h vars with
      | inl err => Some (h1, ([], Some (library_error err)))
      | inr filequery =>
          let cfo :=
            fold_left
              (fun cfo f =>
                 cfo ++ [{| ChangedFileObject.Path := ChangedFileObject.Path f |}])
              (FileQuery.Files_Edges filequery) cfo in
          if negb (PageInfo.HasNextPage (FileQuery.Files_PageInfo filequery)) then
            Some (h1, (cfo, None))
          else
            GetChangedFiles_loop fuel' m pr
              (PageInfo.EndCursor (FileQuery.Files_PageInfo filequery)) cfo h1
      end
  end.

Definition conversion_format : string :=
  "failed to convert pull request number to int: %s".

Definition GetChangedFiles (fuel : nat) (m : GithubClient.t)
    (prNumber commitRef : string) (h : list Call)
    : option (list Call * (list ChangedFileObject.t * option error)) :=
  match Atoi prNumber with
  | (_, Some err) => Some (h, ([], Some (fmt_Errorf conversion_format (op_error err))))
  | (pr, None) => GetChangedFiles_loop fuel m pr "" [] h
  end.

(** *** GetPullRequest *)

Definition pull_request_vars (m : GithubClient.t) (pr : Z) : gmap string value :=
  list_to_map
    [("repositoryOwner", githubv4_String (GithubClient.Owner m));
     ("repositoryName", githubv4_String (GithubClient.Repository m));
     ("prNumber", githubv4_Int pr);
     ("commitsLast", githubv4_Int 100)].

(** Lines 308-316: the scan of the fetched commits, leaving at a match. *)
Fixpoint scan_commits (object : PullRequestObject.t) (commitRef : string)
    (edges : list CommitObject.t) : option PullRequest.t :=
  match edges with
  | [] => None
  | c :: rest =>
      if String.eqb (CommitObject.OID c) commitRef then
        Some {| PullRequest.PullRequestObject := object;
                PullRequest.Tip := c;
                PullRequest.ApprovedReviewCount := 0;
                PullRequest.Labels := [] |}
      else scan_commits object commitRef rest
  end.

Definition not_found_format : string := "commit with ref '%s' does not exist".

Definition GetPullRequest (m : GithubClient.t) (prNumber commitRef : string)
    (h : list Call) : list Call * (option PullRequest.t * option error) :=
  match Atoi prNumber with
  | (_, Some err) => (h, (None, Some (fmt_Errorf conversion_format (op_error err))))
  | (pr, None) =>
      let vars := pull_request_vars m pr in
      let h1 := h ++ [V4_Query pull_request_query vars] in
      match V4Client.Query_pull_request (GithubClient.V4 m) h vars with
      | inl err => (h1, (None, Some (library_error err)))
      | inr query =>
          match scan_commits (PullRequestQuery.PullRequestObject query) commitRef
                  (PullRequestQuery.Commits_Edges query) with
          | Some p => (h1, (Some p, None))
          | None =>
              (h1, (None, Some (fmt_Errorf not_found_format (op_string commitRef))))
          end
      end
  end.

(** *** UpdateCommitStatus *)

Definition is_ascii (c : ascii) : bool := Nat.ltb (nat_of_ascii c) 128.

Definition lower_byte (c : ascii) : ascii :=
  if Nat.leb 65 (nat_of_ascii c) && Nat.leb (nat_of_ascii c) 90
  then ascii_of_nat (nat_of_ascii c + 32) else c.

Fixpoint all_bytes (f : ascii -> bool) (s : string) : bool :=
  match s with
  | EmptyString => true
  | String c s' => f c && all_bytes f s'
  end.

Fixpoint map_bytes (f : ascii -> ascii) (s : string) : string :=
  match s with
  | EmptyString => EmptyString
  | String c s' => String (f c) (map_bytes f s')
  end.

(** One element of [path.Clean]'s scan; [out] holds the elements kept so
    far, last first. *)
Definition clean_element (rooted : bool) (out : list string) (e : string)
    : list string :=
  if String.eqb e "" then out
  else if String.eqb e "." then out
  else if String.eqb e ".." then
    match out with
    | top :: out' =>
        if String.eqb top ".." then (if rooted then out else e :: out) else out'
    | [] => if rooted then out else [e]
    end
  else e :: out.

(** [path.Clean]: no empty and no [.] elements, each inner [..] cancels
    the element before it, a rooted path loses its leading [..]s, and the
    empty result is [.]. *)
Definition path_Clean (p : string) : string :=
  if Str.is_empty p then "."
  else
    let rooted := String.prefix "/" p in
    let out := fold_left (clean_element rooted) (strings_Split p "/") [] in
    let body := strings_Join (rev out) "/" in
    if rooted then "/" +:+ body
    else if Str.is_empty body then "." else body.

(** [path.Join]: the elements from the first non-empty one on, joined by
    slashes and cleaned; the empty string when all are empty. *)
Fixpoint path_Join (elem : list string) : string :=
  match elem with
  | [] => ""
  | e :: rest =>
      if Str.is_empty e then path_Join rest
      else path_Clean (strings_Join elem "/")
  end.

Section Status.

(** [strings.Map(unicode.ToLower, s)], the path [strings.ToLower] takes for
    a string with a byte outside ASCII, and the process environment. *)
Variable unicode_ToLower_Map : string -> string.
Variable os_Getenv : string -> string.

Definition strings_ToLower (s : string) : string :=
  if all_bytes is_ascii s then map_bytes lower_byte s
  else unicode_ToLower_Map s.

Definition UpdateCommitStatus (m : GithubClient.t)
    (commitRef baseContext statusContext status targetURL description : string)
    (h : list Call) : list Call * option error :=
  let baseContext := if Str.is_empty baseContext then "concourse-ci" else baseContext in
  let statusContext := if Str.is_empty statusContext then "status" else statusContext in
  let targetURL :=
    if Str.is_empty targetURL then
      strings_Join [os_Getenv "ATC_EXTERNAL_URL"; "builds"; os_Getenv "BUILD_ID"] "/"
    else targetURL in
  let description :=
    if Str.is_empty description then Sprintf "Concourse CI build %s" status
    else description in
  let repoStatus :=
    {| RepoStatus.State := strings_ToLower status;
       RepoStatus.TargetURL := targetURL;
       RepoStatus.Description := description;
       RepoStatus.Context := path_Join [baseContext; statusContext] |} in
  let h1 :=
    h ++ [V3_Repositories_CreateStatus (GithubClient.Owner m)
            (GithubClient.Repository m) commitRef repoStatus] in
  match V3Client.Repositories_CreateStatus (GithubClient.V3 m) h
          (GithubClient.Owner m) (GithubClient.Repository m) commitRef repoStatus with
  | Some err => (h1, Some (library_error err))
  | None => (h1, None)
  end.

End Status.

(** *** DeletePreviousComments *)

Definition comments_vars (m : GithubClient.t) (pr : Z) : gmap string value :=
  list_to_map
    [("repositoryOwner", githubv4_String (GithubClient.Owner m));
     ("repositoryName", githubv4_String (GithubClient.Repository m));
     ("prNumber", githubv4_Int pr);
     ("commentsLast", githubv4_Int 100)].

(** Lines 393-400: the loop over the fetched comment edges. *)
Fixpoint delete_comments (m : GithubClient.t) (login : string)
    (edges : list CommentEdge.t) (h : list Call) : list Call * option error :=
  match edges with
  | [] => (h, None)
  | e :: rest =>
      if String.eqb (CommentEdge.Author_Login e) login then
        let h1 :=
          h ++ [V3_Issues_DeleteComment (GithubClient.Owner m)
                  (GithubClient.Repository m) (CommentEdge.DatabaseId e)] in
        match V3Client.Issues_DeleteComment (GithubClient.V3 m) h
                (GithubClient.Owner m) (GithubClient.Repository m)
                (CommentEdge.DatabaseId e) with
        | Some err => (h1, Some (library_error err))
        | None => delete_comments m login rest h1
        end
      else delete_comments m login rest h
  end.

Definition DeletePreviousComments (m : GithubClient.t) (prNumber : string)
    (h : list Call) : list Call * option error :=
  match Atoi prNumber with
  | (_, Some err) => (h, Some (fmt_Errorf conversion_format (op_error err)))
  | (pr, None) =>
      let vars := comments_vars m pr in
      let h1 := h ++ [V4_Query comments_query vars] in
      match V4Client.Query_comments (GithubClient.V4 m) h vars with
      | inl err => (h1, Some (library_error err))
      | inr getComments =>
          delete_comments m (CommentsQuery.Viewer_Login getComments)
            (CommentsQuery.Comments_Edges getComments) h1
      end
  end.

(** The deletion call for a comment id, and what the REST client answers to
    the [i]-th deletion of [ids] once the earlier ones have been made on top
    of the history [h]. *)
Definition delete_call (m : GithubClient.t) (id : Z) : Call :=
  V3_Issues_DeleteComment (GithubClient.Owner m) (GithubClient.Repository m) id.

Definition deletion_outcome (m : GithubClient.t) (h : list Call) (ids : list Z)
    (i : nat) (id : Z) : option string :=
  V3Client.Issues_DeleteComment (GithubClient.V3 m)
    (h ++ map (delete_call m) (take i ids))
    (GithubClient.Owner m) (GithubClient.Repository m) id.

(** The ids of the comments written by [login], in list order. *)
Definition authored_by (login : string) (edges : list CommentEdge.t) : list Z :=
  map CommentEdge.DatabaseId
    (filter (fun e => CommentEdge.Author_Login e = login) edges).

(** What a run of the deletion loop leaves behind when it starts from the
    history [h]: the calls made are the deletions of the first [k] of [ids],
    in order; with a nil result all of [ids] were deleted and every call
    succeeded, and with an error the last call made is the one that
    failed, every call before it having succeeded. *)
Definition deleted_in_order (m : GithubClient.t) (h : list Call) (ids : list Z)
    (r : list Call * option error) : Prop :=
  exists k : nat,
    fst r = h ++ map (delete_call m) (take k ids) /\
    match snd r with
    | None =>
        k = length ids /\
        forall i id, ids !! i = Some id -> deletion_outcome m h ids i id = None
    | Some err =>
        exists j id text,
          k = S j /\ ids !! j = Some id /\
          deletion_outcome m h ids j id = Some text /\
          err = library_error text /\
          forall i id', (i < j)%nat -> ids !! i = Some id' ->
                        deletion_outcome m h ids i id' = None
    end.

(** A GraphQL client that answers a search by what the query document
    passes to its fields: two calls whose tagged arguments receive the same
    values get the same answer, whatever else the variable map holds and
    whatever was called before. *)
Definition answers_by_arguments (m : GithubClient.t) : Prop :=
  forall (h1 h2 : list Call) (v1 v2 : gmap string value),
    (forall field arg,
       argument search_query field arg v1 = argument search_query field arg v2) ->
    V4Client.Query_search (GithubClient.V4 m) h1 v1 =
    V4Client.Query_search (GithubClient.V4 m) h2 v2.

(** The pull request [search_node] appends for the commit edge [c] of [p]. *)
Definition search_emitted (p : SearchNode.t) (c : CommitObject.t) : PullRequest.t :=
  {| PullRequest.PullRequestObject := SearchNode.PullRequestObject p;
     PullRequest.Tip := c;
     PullRequest.ApprovedReviewCount := SearchNode.Reviews_TotalCount p;
     PullRequest.Labels :=
       replicate (length (SearchNode.Labels_Edges p)) LabelObject.zero ++
       SearchNode.Labels_Edges p |}.

(** [SearchPullRequests] under the other reading of line 162: the path
    [query.Repository.PullRequests.PageInfo] is no part of the query struct,
    so nothing is decoded into it and the flag keeps its zero value, false;
    the loop then leaves after the first page. *)
Definition SearchPullRequests_flag_unset (m : GithubClient.t)
    (query : string) (limit : Z) (h : list Call)
    : list Call * (list PullRequest.t * option error) :=
  let vars := search_vars query limit in
  let h1 := h ++ [V4_Query search_query vars] in
  match V4Client.Query_search (GithubClient.V4 m) h vars with
  | inl err => (h1, ([], Some (library_error err)))
  | inr query => (h1, (fold_left search_node (SearchQuery.Search_Nodes query) [], None))
  end.

(** A pull request of the response comes from a node some search answer
    held, and carries that node's labels after as many zero labels. *)
Definition emitted_by (m : GithubClient.t) (pr : PullRequest.t) : Prop :=
  exists (h0 : list Call) (vars : gmap string value) (page : SearchQuery.t)
         (p : SearchNode.t) (c : CommitObject.t),
    V4Client.Query_search (GithubClient.V4 m) h0 vars = inr page /\
    In p (SearchQuery.Search_Nodes page) /\
    In c (SearchNode.Commits_Edges p) /\
    pr = search_emitted p c.

(** ** Concrete clients and data, for evaluating the operations *)

Module Fixture.

(** A REST client whose calls succeed, except deleting a comment whose id
    is in [failing]. *)
Definition v3 (failing : list Z) : V3Client.t :=
  {| V3Client.Repositories_CreateStatus := fun _ _ _ _ _ => None;
     V3Client.Issues_DeleteComment :=
       fun _ _ _ id =>
         if existsb (Z.eqb id) failing then Some "403 Forbidden" else None |}.

(** The page a cursor-paginated connection serves: the first page when the
    query passes no cursor or the empty one, and otherwise the page after
    the one that ended at the cursor. *)
Fixpoint page_following {A} (cursor_of : A -> string) (pages : list A)
    (cursor : string) : option A :=
  match pages with
  | [] => None
  | p :: rest =>
      if String.eqb (cursor_of p) cursor then head rest
      else page_following cursor_of rest cursor
  end.

Definition serve {A} (cursor_of : A -> string) (pages : list A)
    (after : option value) : string + A :=
  let page :=
    match after with
    | None => head pages
    | Some (githubv4_String cursor) =>
        if Str.is_empty cursor then head pages
        else page_following cursor_of pages cursor
    | Some _ => None
    end in
  match page with
  | Some p => inr p
  | None => inl "invalid cursor"
  end.

(** A GraphQL client over fixed data.  Each connection is served by the
    arguments its field receives in the query document. *)
Definition v4 (search : list SearchQuery.t) (files : list FileQuery.t)
    (pull_request : PullRequestQuery.t) (comments : CommentsQuery.t) : V4Client.t :=
  {| V4Client.Query_search := fun _ vars =>
       serve (fun p => PageInfo.EndCursor (SearchQuery.Search_PageInfo p)) search
         (argument search_query "search" "after" vars);
     V4Client.Query_files := fun _ vars =>
       serve (fun p => PageInfo.EndCursor (FileQuery.Files_PageInfo p)) files
         (argument file_query "files" "after" vars);
     V4Client.Query_pull_request := fun _ _ => inr pull_request;
     V4Client.Query_comments := fun _ _ => inr comments |}.

Definition client (v3 : V3Client.t) (v4 : V4Client.t) : GithubClient.t :=
  {| GithubClient.V3 := v3; GithubClient.V4 := v4;
     GithubClient.Owner := "owner"; GithubClient.Repository := "name" |}.

Definition source_with (token repository v3 v4 : string)
    (states : list PullRequestState) : Source.t :=
  {| Source.Repository := repository; Source.AccessToken := token;
     Source.V3Endpoint := v3; Source.V4Endpoint := v4;
     Source.Paths := []; Source.IgnorePaths := [];
     Source.DisableCISkip := false; Source.DisableGitLFS := false;
     Source.SkipSSLVerification := false; Source.DisableForks := false;
     Source.IgnoreDrafts := false; Source.GitCryptKey := "";
     Source.BaseBranch := ""; Source.RequiredReviewApprovals := 0;
     Source.Labels := []; Source.States := states |}.

Definition source (repository : string) : Source.t :=
  source_with "token" repository "" "" [].

Definition commit (oid message : string) : CommitObject.t :=
  {| CommitObject.ID := "C_" +:+ oid; CommitObject.OID := oid;
     CommitObject.CommittedDate := DateTime.zero;
     CommitObject.Message := message;
     CommitObject.Author_User_Login := "dev";
     CommitObject.Author_Email := "dev@example.com" |}.

Definition object (number : Z) : PullRequestObject.t :=
  {| PullRequestObject.ID := "PR_" +:+ Itoa number;
     PullRequestObject.Number := number;
     PullRequestObject.Title := "title";
     PullRequestObject.URL := "https://example.com/pull";
     PullRequestObject.BaseRefName := "master";
     PullRequestObject.HeadRefName := "feature";
     PullRequestObject.Repository_URL := "https://example.com";
     PullRequestObject.IsCrossRepository := false;
     PullRequestObject.IsDraft := false;
     PullRequestObject.State := PullRequestStateOpen;
     PullRequestObject.UpdatedAt := DateTime.zero |}.

Definition node (number : Z) (labels : list string) : SearchNode.t :=
  {| SearchNode.PullRequestObject := object number;
     SearchNode.Reviews_TotalCount := 2;
     SearchNode.Commits_Edges := [commit ("oid" +:+ Itoa number) "tip"];
     SearchNode.Labels_Edges := map LabelObject.Build_t labels |}.

Definition search_page (number : Z) (labels : list string) (cursor : string)
    (more : bool) : SearchQuery.t :=
  {| SearchQuery.Search_Nodes := [node number labels];
     SearchQuery.Search_PageInfo :=
       {| PageInfo.EndCursor := cursor; PageInfo.HasNextPage := more |} |}.

Definition files_page (paths : list string) (cursor : string) (more : bool)
    : FileQuery.t :=
  {| FileQuery.Files_Edges := map ChangedFileObject.Build_t paths;
     FileQuery.Files_PageInfo :=
       {| PageInfo.EndCursor := cursor; PageInfo.HasNextPage := more |} |}.

(** Two pages of search results and two pages of changed files, each
    ending in a page without a next one. *)
Definition two_search_pages : list SearchQuery.t :=
  [search_page 1 ["bug"] "c1" true; search_page 2 [] "c2" false].

Definition two_files_pages : list FileQuery.t :=
  [files_page ["a.go"; "b.go"] "f1" true; files_page ["c.go"] "f2" false].

Definition window : PullRequestQuery.t :=
  {| PullRequestQuery.PullRequestObject := object 7;
     PullRequestQuery.Commits_Edges :=
       [commit "aaa" "first"; commit "bbb" "second"; commit "bbb" "third";
        commit "ccc" "fourth"] |}.

(** Three comments, the first and the last by the viewer. *)
Definition three_comments : CommentsQuery.t :=
  {| CommentsQuery.Viewer_Login := "bot";
     CommentsQuery.PullRequest_Id := "PR_7";
     CommentsQuery.Comments_Edges :=
       [{| CommentEdge.DatabaseId := 11; CommentEdge.Author_Login := "bot" |};
        {| CommentEdge.DatabaseId := 12; CommentEdge.Author_Login := "alice" |};
        {| CommentEdge.DatabaseId := 13; CommentEdge.Author_Login := "bot" |}] |}.

Definition github (failing : list Z) : GithubClient.t :=
  client (v3 failing) (v4 two_search_pages two_files_pages window three_comments).

(** A client whose search has one page, of one node with two labels. *)
Definition labelled : GithubClient.t :=
  client (v3 [])
    (v4 [search_page 3 ["bug"; "wip"] "c3" false] two_files_pages window three_comments).

(** Construction with package constructors that hand out the clients above. *)
Definition new_github (s : Source.t) : option GithubClient.t * option error :=
  NewGithubClient (fun endpoint => inr endpoint)
    (fun _ => v3 []) (fun _ _ _ => inr (v3 []))
    (fun _ => v4 two_search_pages two_files_pages window three_comments)
    (fun _ _ => v4 two_search_pages two_files_pages window three_comments) s.

Definition env (name : string) : string :=
  if String.eqb name "ATC_EXTERNAL_URL" then "https://ci.example.com"
  else if String.eqb name "BUILD_ID" then "1234" else "".

End Fixture.

(** ** The rest of the two files *)

(** *** Metadata *)

Module MetadataField.
Record t := { Name : string; Value : string }.
End MetadataField.

(** [func (m *Metadata) Add(name, value string)], with [type Metadata
    []*MetadataField]: the metadata behind the receiver after the call. *)
Definition Metadata_Add (m : list MetadataField.t) (name value : string)
    : list MetadataField.t :=
  m ++ [{| MetadataField.Name := name; MetadataField.Value := value |}].

(** *** ListModifiedFiles and PostComment *)

(** [github.ListOptions], and the parts of [github.CommitFile] and
    [github.Response] that are read; [Filename] is a [*string]. *)
Module ListOptions.
Record t := { Page : Z; PerPage : Z }.
End ListOptions.

Module CommitFile.
Record t := { Filename : option string }.
End CommitFile.

Module Response.
Record t := { NextPage : Z }.
End Response.

(** The calls of the two REST services these operations use; a history of
    them continues a history of the calls above. *)
Inductive RestCall :=
| V3_PullRequests_ListFiles (owner repo : string) (number : Z) (opt : ListOptions.t)
| V3_Issues_CreateComment (owner repo : string) (number : Z) (body : string).

Definition Event : Type := Call + RestCall.

(** How a call of a function that can loop or dereference nil ends. *)
Inductive run (A : Type) : Type :=
| returned (a : A)
| panicked
| unfinished.
Arguments returned {A} a.
Arguments panicked {A}.
Arguments unfinished {A}.

(** Lines 188-190: [files = append(files, *f.Filename)] for each file of
    the page; [None] is the dereference of a nil [Filename]. *)
Fixpoint append_filenames (files : list string) (result : list CommitFile.t)
    : option (list string) :=
  match result with
  | [] => Some files
  | f :: rest =>
      match CommitFile.Filename f with
      | Some name => append_filenames (files ++ [name]) rest
      | None => None
      end
  end.

Section Rest.

(** [V3.PullRequests.ListFiles] and [V3.Issues.CreateComment], as functions
    of the REST client and of the calls made so far; an answer is the
    decoded result or the text of the library's error. *)
Variable PullRequests_ListFiles :
  V3Client.t -> list Event -> string -> string -> Z -> ListOptions.t ->
  string + (list CommitFile.t * Response.t).
Variable Issues_CreateComment :
  V3Client.t -> list Event -> string -> string -> Z -> string -> option string.

Definition list_files_call (m : GithubClient.t) (prNumber : Z) (opt : ListOptions.t)
    : Event :=
  inr (V3_PullRequests_ListFiles (GithubClient.Owner m) (GithubClient.Repository m)
         prNumber opt).

(** The [for] loop of lines 177-195, bounded by [fuel]. *)
Fixpoint ListModifiedFiles_loop (fuel : nat) (m : GithubClient.t) (prNumber : Z)
    (opt : ListOptions.t) (files : list string) (h : list Event)
    : run (list Event * (list string * option error)) :=
  match fuel with
  | O => unfinished
  | S fuel' =>
      let h1 := h ++ [list_files_call m prNumber opt] in
      match PullRequests_ListFiles (GithubClient.V3 m) h (GithubClient.Owner m)
              (GithubClient.Repository m) prNumber opt with
      | inl err => returned (h1, ([], Some (library_error err)))
      | inr (result, response) =>
          match append_filenames files result with
          | None => panicked
          | Some files =>
              if Z.eqb (Response.NextPage response) 0 then
                returned (h1, (files, None))
              else
                ListModifiedFiles_loop fuel' m prNumber
                  {| ListOptions.Page := Response.NextPage response;
                     ListOptions.PerPage := ListOptions.PerPage opt |}
                  files h1
          end
      end
  end.

Definition ListModifiedFiles (fuel : nat) (m : GithubClient.t) (prNumber : Z)
    (h : list Event) : run (list Event * (list string * option error)) :=
  ListModifiedFiles_loop fuel m prNumber
    {| ListOptions.Page := 0; ListOptions.PerPage := 100 |} [] h.


(** The REST client answers the successive calls of the loop, from the
    options [opt] on top of [h], with [pages]. *)
Fixpoint list_files_answers (m : GithubClient.t) (prNumber : Z) (h : list Event)
    (opt : ListOptions.t)
    (pages : list (list CommitFile.t * Response.t)) : Prop :=
  match pages with
  | [] => True
  | page :: rest =>
      PullRequests_ListFiles (GithubClient.V3 m) h (GithubClient.Owner m)
        (GithubClient.Repository m) prNumber opt = inr page /\
      list_files_answers m prNumber (h ++ [list_files_call m prNumber opt])
        {| ListOptions.Page := Response.NextPage (snd page);
           ListOptions.PerPage := ListOptions.PerPage opt |} rest
  end.

End Rest.

(** The options of the successive calls that fetch [pages]. *)
Fixpoint list_files_options (opt : ListOptions.t)
    (pages : list (list CommitFile.t * Response.t)) : list ListOptions.t :=
  match pages with
  | [] => []
  | page :: rest =>
      opt :: list_files_options
               {| ListOptions.Page := Response.NextPage (snd page);
                  ListOptions.PerPage := ListOptions.PerPage opt |} rest
  end.

(** The file names of a page, when none of them is nil. *)
Fixpoint filenames (result : list CommitFile.t) : option (list string) :=
  match result with
  | [] => Some []
  | f :: rest =>
      match CommitFile.Filename f, filenames rest with
      | Some name, Some names => Some (name :: names)
      | _, _ => None
      end
  end.

(** The GraphQL client answers the successive queries of the file loop,
    from the cursor [offset] on top of [h], with [pages]. *)
Fixpoint files_answers (m : GithubClient.t) (pr : Z) (h : list Call)
    (offset : string) (pages : list FileQuery.t) : Prop :=
  match pages with
  | [] => True
  | page :: rest =>
      V4Client.Query_files (GithubClient.V4 m) h (files_vars m pr offset) = inr page /\
      files_answers m pr (h ++ [V4_Query file_query (files_vars m pr offset)])
        (PageInfo.EndCursor (FileQuery.Files_PageInfo page)) rest
  end.

(** The cursors of the successive queries that fetch [pages]. *)
Fixpoint files_offsets (offset : string) (pages : list FileQuery.t) : list string :=
  match pages with
  | [] => []
  | page :: rest =>
      offset :: files_offsets (PageInfo.EndCursor (FileQuery.Files_PageInfo page)) rest
  end.

(** A path element that [path.Clean] keeps as it is. *)
Definition plain_name (e : string) : Prop :=
  e <> "" /\ e <> "." /\ e <> ".." /\ Str.count "/" e = O.

(** *** More concrete data *)

Module Sample.

(** A REST file listing served by page number: page 0 or 1 is the first. *)
Definition list_files (pages : list (list CommitFile.t * Response.t))
    (_ : V3Client.t) (_ : list Event) (_ _ : string) (_ : Z) (opt : ListOptions.t)
    : string + (list CommitFile.t * Response.t) :=
  match nth_error pages (Z.to_nat (ListOptions.Page opt - 1)) with
  | Some page => inr page
  | None => inl "404 Not Found"
  end.

Definition file (name : string) : CommitFile.t :=
  {| CommitFile.Filename := Some name |}.

Definition two_listings : list (list CommitFile.t * Response.t) :=
  [([file "a.go"; file "b.go"], {| Response.NextPage := 2 |});
   ([file "c.go"], {| Response.NextPage := 0 |})].

Definition nameless_listing : list (list CommitFile.t * Response.t) :=
  [([file "a.go"; {| CommitFile.Filename := None |}], {| Response.NextPage := 0 |})].


(** A GraphQL client that answers the first call made through it, with a
    page that announces a next one, and fails from then on. *)
Definition flaky : GithubClient.t :=
  Fixture.client (Fixture.v3 [])
    {| V4Client.Query_search := fun h _ =>
         match h with
         | [] => inr (Fixture.search_page 1 ["bug"] "c1" true)
         | _ => inl "502 Bad Gateway"
         end;
       V4Client.Query_files := fun h _ =>
         match h with
         | [] => inr (Fixture.files_page ["a.go"; "b.go"] "f1" true)
         | _ => inl "502 Bad Gateway"
         end;
       V4Client.Query_pull_request := fun _ _ => inr Fixture.window;
       V4Client.Query_comments := fun _ _ => inr Fixture.three_comments |}.

(** A GraphQL client that fails every query. *)
Definition down : GithubClient.t :=
  Fixture.client (Fixture.v3 [])
    {| V4Client.Query_search := fun _ _ => inl "502 Bad Gateway";
       V4Client.Query_files := fun _ _ => inl "502 Bad Gateway";
       V4Client.Query_pull_request := fun _ _ => inl "502 Bad Gateway";
       V4Client.Query_comments := fun _ _ => inl "502 Bad Gateway" |}.

End Sample.

(** * Properties *)

(** ** Strings and the library functions *)

Module StrFacts.

Lemma is_empty_true s : Str.is_empty s = true <-> s = "".
Proof. destruct s; simpl; split; congruence. Qed.

Lemma is_empty_false s : Str.is_empty s = false <-> s <> "".
Proof. destruct s; simpl; split; congruence. Qed.

Lemma append_nil s : "" +:+ s = s.
Proof. reflexivity. Qed.

Lemma append_cons c s t : String c s +:+ t = String c (s +:+ t).
Proof. reflexivity. Qed.

Lemma append_nil_r s : s +:+ "" = s.
Proof. induction s as [|c s IH]; [done|]. by rewrite append_cons, IH. Qed.

Lemma prefix_app s t : String.prefix s (s +:+ t) = true.
Proof.
  induction s as [|c s IH]; simpl; [by destruct t|].
  by destruct (ascii_dec c c).
Qed.

Lemma contains_prefix s t : Str.contains (s +:+ t) s = true.
Proof.
  destruct s as [|c s]; simpl; [by destruct t|].
  destruct (ascii_dec c c); [|done]. by rewrite prefix_app.
Qed.

Lemma contains_app_r p s sub :
  Str.contains s sub = true -> Str.contains (p +:+ s) sub = true.
Proof.
  intros H. induction p as [|c p IH]; simpl; [done|].
  rewrite IH. apply orb_true_r.
Qed.

Lemma contains_middle p s t : Str.contains (p +:+ s +:+ t) s = true.
Proof. apply contains_app_r, contains_prefix. Qed.

Lemma count_app c s t :
  Str.count c (s +:+ t) = (Str.count c s + Str.count c t)%nat.
Proof. induction s as [|d s IH]; simpl; [done|]. rewrite IH. lia. Qed.

End StrFacts.

(** Case analysis on the emptiness test of a Go string. *)
Ltac case_empty s :=
  let E := fresh "E" in
  destruct (Str.is_empty s) eqn:E;
  [apply StrFacts.is_empty_true in E | apply StrFacts.is_empty_false in E].

(** *** strings.Split on a slash *)

Lemma prefix_slash c s : String.prefix "/" (String c s) = Ascii.eqb c "/".
Proof.
  change (String.prefix "/" (String c s))
    with (if ascii_dec "/" c then String.prefix "" s else false).
  destruct (ascii_dec "/" c) as [<-|Hne].
  - by destruct s.
  - destruct (Ascii.eqb_spec c "/"); congruence.
Qed.

Lemma Split_slash_cons c s :
  strings_Split (String c s) "/" =
  if Ascii.eqb c "/" then "" :: strings_Split s "/"
  else match strings_Split s "/" with
       | piece :: pieces => String c piece :: pieces
       | [] => [String c ""]
       end.
Proof.
  unfold strings_Split.
  change (Split_from "/" (String c s) 0) with
    (if String.prefix "/" (String c s)
     then "" :: Split_from "/" s 0
     else match Split_from "/" s 0 with
          | piece :: pieces => String c piece :: pieces
          | [] => [String c ""]
          end).
  by rewrite prefix_slash.
Qed.

Lemma Split_slash_length s :
  length (strings_Split s "/") = S (Str.count "/" s).
Proof.
  induction s as [|c s IH]; [done|].
  rewrite Split_slash_cons. simpl.
  destruct (Ascii.eqb c "/"); simpl; [by rewrite IH|].
  destruct (strings_Split s "/"); simpl in *; lia.
Qed.

Lemma Split_slash_free s :
  Str.count "/" s = O -> strings_Split s "/" = [s].
Proof.
  induction s as [|c s IH]; [done|].
  rewrite Split_slash_cons. simpl.
  destruct (Ascii.eqb c "/"); simpl; [lia|].
  intros H. by rewrite IH.
Qed.

Lemma Split_slash_app o n :
  Str.count "/" o = O ->
  strings_Split (o +:+ "/" +:+ n) "/" = o :: strings_Split n "/".
Proof.
  change ("/" +:+ n) with (String "/" n).
  induction o as [|c o IH]; rewrite ?StrFacts.append_cons, ?StrFacts.append_nil;
    cbn [Str.count].
  - intros _. by rewrite Split_slash_cons.
  - rewrite Split_slash_cons.
    destruct (Ascii.eqb c "/"); [simpl; lia|].
    intros H. by rewrite IH.
Qed.

Lemma one_slash s :
  Str.count "/" s = 1%nat ->
  exists o n, s = o +:+ "/" +:+ n /\ Str.count "/" o = O /\ Str.count "/" n = O.
Proof.
  induction s as [|c s IH]; simpl; [lia|].
  destruct (Ascii.eqb_spec c "/") as [->|Hne]; simpl.
  - intros H. exists "", s. split; [done|]. simpl. lia.
  - intros H. destruct (IH H) as (o & n & -> & Ho & Hn).
    exists (String c o), n. simpl.
    destruct (Ascii.eqb_spec c "/"); [done|]. by rewrite Ho.
Qed.

Lemma parseRepository_ok o n :
  Str.count "/" o = O -> Str.count "/" n = O ->
  parseRepository (o +:+ "/" +:+ n) = (o, n, None).
Proof.
  intros Ho Hn. unfold parseRepository.
  by rewrite Split_slash_app, (Split_slash_free n).
Qed.

Lemma parseRepository_malformed s :
  Str.count "/" s <> 1%nat ->
  parseRepository s = ("", "", Some (errors_New "malformed repository")).
Proof.
  intros H. unfold parseRepository.
  rewrite Split_slash_length.
  destruct (Nat.eqb_spec (S (Str.count "/" s)) 2); [lia|done].
Qed.

(** *** Decimal strings *)

Lemma Itoa_decimal n : decimal_value (Itoa n) = Some n.
Proof.
  unfold decimal_value, Itoa.
  rewrite NilZero.isi.
  - simpl. by rewrite DecimalZ.of_to.
  - destruct n; simpl; try done.
    intros [= H]. by apply DecimalPos.Unsigned.to_uint_nonnil in H.
  - destruct n; simpl; try done.
    intros [= H]. by apply DecimalPos.Unsigned.to_uint_nonnil in H.
Qed.

Lemma Itoa_injective n1 n2 : Itoa n1 = Itoa n2 -> n1 = n2.
Proof.
  intros H. apply (f_equal decimal_value) in H.
  rewrite !Itoa_decimal in H. congruence.
Qed.

(** ** Version derivation *)

(** C4: [NewVersion] is a total function of the pull request: PR is the
    decimal string of the number, Commit the tip's OID, UpdatedTime the
    update time unchanged, ApprovedReviewCount the decimal string of the
    count and State the state unchanged; number 42, OID abc123, count 2
    and state OPEN give 42, abc123, the same time, 2 and OPEN. *)
Theorem NewVersion_mapping (p : PullRequest.t) :
  let object := PullRequest.PullRequestObject p in
  NewVersion p =
    {| Version.PR := Itoa (PullRequestObject.Number object);
       Version.Commit := CommitObject.OID (PullRequest.Tip p);
       Version.UpdatedTime := DateTime.Time (PullRequestObject.UpdatedAt object);
       Version.ApprovedReviewCount := Itoa (PullRequest.ApprovedReviewCount p);
       Version.State := PullRequestObject.State object |} /\
  decimal_value (Version.PR (NewVersion p)) = Some (PullRequestObject.Number object) /\
  decimal_value (Version.ApprovedReviewCount (NewVersion p)) =
    Some (PullRequest.ApprovedReviewCount p) /\
  (PullRequestObject.Number object = 42 ->
   CommitObject.OID (PullRequest.Tip p) = "abc123" ->
   PullRequest.ApprovedReviewCount p = 2 ->
   PullRequestObject.State object = PullRequestStateOpen ->
   NewVersion p =
     {| Version.PR := "42"; Version.Commit := "abc123";
        Version.UpdatedTime := DateTime.Time (PullRequestObject.UpdatedAt object);
        Version.ApprovedReviewCount := "2"; Version.State := "OPEN" |}).
Proof.
  intros object. split; [reflexivity|].
  split; [apply Itoa_decimal|].
  split; [apply Itoa_decimal|].
  intros Hn Ho Hc Hs. unfold NewVersion. fold object.
  by rewrite Hn, Ho, Hc, Hs.
Qed.

Lemma NewVersion_mapping_example :
  let p :=
    {| PullRequest.PullRequestObject :=
         {| PullRequestObject.ID := "id"; PullRequestObject.Number := 42;
            PullRequestObject.Title := "t"; PullRequestObject.URL := "u";
            PullRequestObject.BaseRefName := "master";
            PullRequestObject.HeadRefName := "topic";
            PullRequestObject.Repository_URL := "r";
            PullRequestObject.IsCrossRepository := false;
            PullRequestObject.IsDraft := false;
            PullRequestObject.State := PullRequestStateOpen;
            PullRequestObject.UpdatedAt :=
              {| DateTime.Time := {| Time.wall := 5; Time.ext := 6; Time.loc := None |} |} |};
       PullRequest.Tip := Fixture.commit "abc123" "tip";
       PullRequest.ApprovedReviewCount := 2;
       PullRequest.Labels := [] |} in
  NewVersion p =
    {| Version.PR := "42"; Version.Commit := "abc123";
       Version.UpdatedTime := {| Time.wall := 5; Time.ext := 6; Time.loc := None |};
       Version.ApprovedReviewCount := "2"; Version.State := "OPEN" |}.
Proof.
  intros p.
  exact (proj2 (proj2 (proj2 (NewVersion_mapping p))) eq_refl eq_refl eq_refl eq_refl).
Defined.

(** ** Source validation *)

Lemma Sprintf_states state :
  Sprintf states_format state =
  "states value " +:+
    String Str.dquote (state +:+ String Str.dquote " must be one of: OPEN, MERGED, CLOSED").
Proof. reflexivity. Qed.

Lemma Validate_states_valid states :
  Forall valid_state states -> Validate_states states = None.
Proof.
  induction 1 as [|state rest Hv _ IH]; [done|].
  simpl. by destruct Hv as [-> | [-> | ->]].
Qed.

Lemma Validate_states_invalid valid bad rest :
  Forall valid_state valid -> ~ valid_state bad ->
  Validate_states (valid ++ bad :: rest) = Some (errors_New (Sprintf states_format bad)).
Proof.
  intros Hvalid Hbad. induction Hvalid as [|state valid Hv _ IH].
  - cbn [app Validate_states].
    destruct (String.eqb_spec bad PullRequestStateOpen);
      [exfalso; apply Hbad; left; done|].
    destruct (String.eqb_spec bad PullRequestStateClosed);
      [exfalso; apply Hbad; right; left; done|].
    destruct (String.eqb_spec bad PullRequestStateMerged);
      [exfalso; apply Hbad; right; right; done|].
    done.
  - rewrite <- app_comm_cons. cbn [Validate_states]. rewrite IH.
    by destruct Hv as [-> | [-> | ->]].
Qed.

(** C3: [Validate] leaves the Source as it was and returns the first
    failure in rule order: an empty token; else an empty repository; else
    exactly one endpoint override set; else the first state outside OPEN,
    CLOSED, MERGED, named in the message; with both endpoints set or both
    empty and every state valid it returns nil. *)
Theorem Validate_first_failure (s : Source.t) :
  fst (Validate s) = s /\
  (Source.AccessToken s = "" ->
   snd (Validate s) = Some (errors_New "access_token must be set")) /\
  (Source.AccessToken s <> "" -> Source.Repository s = "" ->
   snd (Validate s) = Some (errors_New "repository must be set")) /\
  (Source.AccessToken s <> "" -> Source.Repository s <> "" ->
   Source.V3Endpoint s <> "" -> Source.V4Endpoint s = "" ->
   snd (Validate s) =
     Some (errors_New "v4_endpoint must be set together with v3_endpoint")) /\
  (Source.AccessToken s <> "" -> Source.Repository s <> "" ->
   Source.V3Endpoint s = "" -> Source.V4Endpoint s <> "" ->
   snd (Validate s) =
     Some (errors_New "v3_endpoint must be set together with v4_endpoint")) /\
  (Source.AccessToken s <> "" -> Source.Repository s <> "" ->
   (Source.V3Endpoint s = "" <-> Source.V4Endpoint s = "") ->
   (Forall valid_state (Source.States s) -> snd (Validate s) = None) /\
   (forall valid bad rest,
      Source.States s = valid ++ bad :: rest ->
      Forall valid_state valid -> ~ valid_state bad ->
      snd (Validate s) =
        Some (errors_New
                ("states value " +:+
                   String Str.dquote
                     (bad +:+ String Str.dquote " must be one of: OPEN, MERGED, CLOSED"))))).
Proof.
  unfold Validate.
  case_empty (Source.AccessToken s); case_empty (Source.Repository s);
    case_empty (Source.V3Endpoint s); case_empty (Source.V4Endpoint s);
    cbn [negb andb fst snd];
    repeat split; try congruence; try tauto.
  all: try (intros; by apply Validate_states_valid).
  all: intros valid bad rest -> Hvalid Hbad;
    by rewrite (Validate_states_invalid _ _ _ Hvalid Hbad), Sprintf_states.
Qed.

(** A valid Source; one whose second state is no valid literal; one that
    breaks every rule, where the token rule answers. *)
Lemma Validate_first_failure_example :
  snd (Validate (Fixture.source_with "token" "owner/name" "" "" ["OPEN"; "MERGED"]))
    = None /\
  snd (Validate (Fixture.source_with "token" "owner/name" "https://v3" "https://v4"
                   ["CLOSED"; "DRAFT"; "BOGUS"]))
    = Some (errors_New
              ("states value " +:+
                 String Str.dquote
                   ("DRAFT" +:+ String Str.dquote " must be one of: OPEN, MERGED, CLOSED"))) /\
  snd (Validate (Fixture.source_with "" "" "https://v3" "" ["BOGUS"]))
    = Some (errors_New "access_token must be set").
Proof.
  split; [|split].
  - destruct (Validate_first_failure
                (Fixture.source_with "token" "owner/name" "" "" ["OPEN"; "MERGED"]))
      as (_ & _ & _ & _ & _ & H).
    refine (proj1 (H _ _ _) _); [discriminate | discriminate | done |].
    constructor; [by left|]. constructor; [by right; right|]. constructor.
  - destruct (Validate_first_failure
                (Fixture.source_with "token" "owner/name" "https://v3" "https://v4"
                   ["CLOSED"; "DRAFT"; "BOGUS"]))
      as (_ & _ & _ & _ & _ & H).
    refine (proj2 (H _ _ _) ["CLOSED"] "DRAFT" ["BOGUS"] eq_refl _ _);
      [discriminate | discriminate | split; discriminate | |].
    + constructor; [by right; left|]. constructor.
    + intros [H' | [H' | H']]; discriminate H'.
  - destruct (Validate_first_failure
                (Fixture.source_with "" "" "https://v3" "" ["BOGUS"]))
      as (_ & H & _).
    exact (H eq_refl).
Defined.

(** ** Client construction *)

Section ConstructionFacts.

Variable url_Parse : string -> string + string.
Variable github_NewClient : HttpClient.t -> V3Client.t.
Variable github_NewEnterpriseClient :
  string -> string -> HttpClient.t -> string + V3Client.t.
Variable githubv4_NewClient : HttpClient.t -> V4Client.t.
Variable githubv4_NewEnterpriseClient : string -> HttpClient.t -> V4Client.t.

Let new := NewGithubClient url_Parse github_NewClient github_NewEnterpriseClient
             githubv4_NewClient githubv4_NewEnterpriseClient.

Lemma NewGithubClient_malformed s :
  Str.count "/" (Source.Repository s) <> 1%nat ->
  new s = (None, Some (errors_New "malformed repository")).
Proof.
  intros H. unfold new, NewGithubClient.
  by rewrite (parseRepository_malformed _ H).
Qed.

Lemma NewGithubClient_split s owner name m :
  parseRepository (Source.Repository s) = (owner, name, None) ->
  fst (new s) = Some m ->
  GithubClient.Owner m = owner /\ GithubClient.Repository m = name.
Proof.
  intros Hp. unfold new, NewGithubClient. rewrite Hp.
  repeat match goal with
         | |- context [match ?x with _ => _ end] => destruct x
         end; simpl; try discriminate; by intros [= <-].
Qed.

Lemma NewGithubClient_public s owner name :
  parseRepository (Source.Repository s) = (owner, name, None) ->
  Source.V3Endpoint s = "" -> Source.V4Endpoint s = "" ->
  exists m, new s = (Some m, None).
Proof.
  intros Hp H3 H4. unfold new, NewGithubClient. rewrite Hp, H3, H4. simpl. eauto.
Qed.

(** C2, as the code has it: construction splits the repository identifier
    at its slashes.  With no slash or more than one it fails with the
    malformed-repository error; with exactly one, the text before it is
    the owner and the text after it the name, whether or not they are
    empty, and with the public endpoints the construction succeeds.  An
    identifier with exactly one slash always has that form. *)
Theorem NewGithubClient_repository (s : Source.t) :
  (Str.count "/" (Source.Repository s) <> 1%nat ->
   new s = (None, Some (errors_New "malformed repository"))) /\
  (forall owner name,
     Str.count "/" owner = O -> Str.count "/" name = O ->
     Source.Repository s = owner +:+ "/" +:+ name ->
     parseRepository (Source.Repository s) = (owner, name, None) /\
     (forall m, fst (new s) = Some m ->
        GithubClient.Owner m = owner /\ GithubClient.Repository m = name) /\
     (Source.V3Endpoint s = "" -> Source.V4Endpoint s = "" ->
      exists m, new s = (Some m, None))) /\
  (Str.count "/" (Source.Repository s) = 1%nat ->
   exists owner name,
     Source.Repository s = owner +:+ "/" +:+ name /\
     Str.count "/" owner = O /\ Str.count "/" name = O).
Proof.
  split; [apply NewGithubClient_malformed|].
  split; [|apply one_slash].
  intros owner name Ho Hn Hs.
  assert (Hp : parseRepository (Source.Repository s) = (owner, name, None))
    by (rewrite Hs; by apply parseRepository_ok).
  split; [exact Hp|]. split.
  - intros m. by apply NewGithubClient_split.
  - exact (NewGithubClient_public s owner name Hp).
Qed.

End ConstructionFacts.

(** The identifiers owner/name, owner and a/b/c, through the theorem. *)
Lemma NewGithubClient_repository_examples :
  (exists m, Fixture.new_github (Fixture.source "owner/name") = (Some m, None) /\
     GithubClient.Owner m = "owner" /\ GithubClient.Repository m = "name") /\
  Fixture.new_github (Fixture.source "owner") =
    (None, Some (errors_New "malformed repository")) /\
  Fixture.new_github (Fixture.source "a/b/c") =
    (None, Some (errors_New "malformed repository")).
Proof.
  split; [|split].
  - destruct (NewGithubClient_repository (fun e => inr e) (fun _ => Fixture.v3 [])
                (fun _ _ _ => inr (Fixture.v3 []))
                (fun _ => Fixture.v4 Fixture.two_search_pages Fixture.two_files_pages
                            Fixture.window Fixture.three_comments)
                (fun _ _ => Fixture.v4 Fixture.two_search_pages Fixture.two_files_pages
                              Fixture.window Fixture.three_comments)
                (Fixture.source "owner/name")) as (_ & H & _).
    destruct (H "owner" "name" eq_refl eq_refl eq_refl) as (_ & Hm & Hex).
    destruct (Hex eq_refl eq_refl) as [m Em].
    exists m. split; [exact Em|]. apply Hm. unfold Fixture.new_github in Em.
    by rewrite Em.
  - apply NewGithubClient_repository. simpl. lia.
  - apply NewGithubClient_repository. simpl. lia.
Defined.

(** An identifier with an empty name is split and accepted: no
    malformed-repository error, and a client whose repository name is
    empty. *)
Lemma NewGithubClient_accepts_empty_name :
  strings_Split "owner/" "/" = ["owner"; ""] /\
  parseRepository "owner/" = ("owner", "", None) /\
  snd (Fixture.new_github (Fixture.source "owner/")) = None /\
  option_map GithubClient.Owner (fst (Fixture.new_github (Fixture.source "owner/")))
    = Some "owner" /\
  option_map GithubClient.Repository (fst (Fixture.new_github (Fixture.source "owner/")))
    = Some "".
Proof. repeat split. Qed.

(** ** GetPullRequest *)

Section Scan.

Variables (object : PullRequestObject.t) (commitRef : string).

Let differs (c : CommitObject.t) : Prop := CommitObject.OID c <> commitRef.

Lemma scan_commits_first before c after :
  Forall differs before -> CommitObject.OID c = commitRef ->
  scan_commits object commitRef (before ++ c :: after) =
    Some {| PullRequest.PullRequestObject := object; PullRequest.Tip := c;
            PullRequest.ApprovedReviewCount := 0; PullRequest.Labels := [] |}.
Proof.
  intros Hb Hc. induction Hb as [|c' before Hc' _ IH]; simpl.
  - by rewrite (proj2 (String.eqb_eq _ _) Hc).
  - by rewrite (proj2 (String.eqb_neq _ _) Hc').
Qed.

Lemma scan_commits_none edges :
  Forall differs edges -> scan_commits object commitRef edges = None.
Proof.
  induction 1 as [|c edges Hc _ IH]; simpl; [done|].
  by rewrite (proj2 (String.eqb_neq _ _) Hc).
Qed.

Lemma first_match_split (edges : list CommitObject.t) :
  Exists (fun c => CommitObject.OID c = commitRef) edges ->
  exists before c after,
    edges = before ++ c :: after /\ Forall differs before /\
    CommitObject.OID c = commitRef.
Proof.
  induction edges as [|c edges IH]; intros H; [by inversion H|].
  destruct (String.eqb_spec (CommitObject.OID c) commitRef) as [Heq|Hne].
  - exists [], c, edges. by repeat split.
  - inversion H as [? ? Hc|? ? Hrest]; subst; [done|].
    destruct (IH Hrest) as (before & c' & after & -> & Hb & Hc').
    exists (c :: before), c', after. repeat split; [|done].
    by constructor.
Qed.

End Scan.

(** C5: when the fetched window holds a commit with the requested OID,
    [GetPullRequest] returns the pull request built from the first such
    commit, whatever follows it in the window (later commits with the same
    OID included), with only the PullRequestObject and the Tip set: the
    review count is 0 and the labels are nil. *)
Theorem GetPullRequest_first_match (m : GithubClient.t)
    (prNumber commitRef : string) (h : list Call) (pr : Z)
    (query : PullRequestQuery.t) :
  Atoi prNumber = (pr, None) ->
  V4Client.Query_pull_request (GithubClient.V4 m) h (pull_request_vars m pr)
    = inr query ->
  Exists (fun c => CommitObject.OID c = commitRef)
    (PullRequestQuery.Commits_Edges query) ->
  exists before c after,
    PullRequestQuery.Commits_Edges query = before ++ c :: after /\
    Forall (fun c' => CommitObject.OID c' <> commitRef) before /\
    CommitObject.OID c = commitRef /\
    GetPullRequest m prNumber commitRef h =
      (h ++ [V4_Query pull_request_query (pull_request_vars m pr)],
       (Some {| PullRequest.PullRequestObject :=
                  PullRequestQuery.PullRequestObject query;
                PullRequest.Tip := c;
                PullRequest.ApprovedReviewCount := 0;
                PullRequest.Labels := [] |}, None)).
Proof.
  intros Ha Hq Hex.
  destruct (first_match_split commitRef _ Hex) as (before & c & after & He & Hb & Hc).
  exists before, c, after. repeat split; try done.
  unfold GetPullRequest. rewrite Ha, Hq, He.
  by rewrite (scan_commits_first _ commitRef before c after Hb Hc).
Qed.

(** The window aaa, bbb, bbb, ccc: the first bbb is the tip. *)
Lemma GetPullRequest_first_match_example :
  exists before c after,
    PullRequestQuery.Commits_Edges Fixture.window = before ++ c :: after /\
    Forall (fun c' => CommitObject.OID c' <> "bbb") before /\
    CommitObject.OID c = "bbb" /\
    GetPullRequest (Fixture.github []) "7" "bbb" [] =
      ([V4_Query pull_request_query (pull_request_vars (Fixture.github []) 7)],
       (Some {| PullRequest.PullRequestObject := Fixture.object 7;
                PullRequest.Tip := c;
                PullRequest.ApprovedReviewCount := 0;
                PullRequest.Labels := [] |}, None)).
Proof.
  apply (GetPullRequest_first_match (Fixture.github []) "7" "bbb" [] 7 Fixture.window);
    [reflexivity | reflexivity |].
  apply Exists_cons_tl, Exists_cons_hd. reflexivity.
Defined.

Lemma GetPullRequest_duplicate_oid :
  option_map (fun p => CommitObject.Message (PullRequest.Tip p))
    (fst (snd (GetPullRequest (Fixture.github []) "7" "bbb" []))) = Some "second".
Proof. reflexivity. Qed.

Lemma Sprintf_not_found commitRef :
  Sprintf not_found_format commitRef =
  "commit with ref '" +:+ commitRef +:+ "' does not exist".
Proof. reflexivity. Qed.

(** C6: when no commit of the fetched window (the last 100 commits are
    asked for) has the requested OID, [GetPullRequest] returns nil for the
    pull request and the error made from the not-found format and the ref;
    its text names the ref, and it is neither the conversion error nor an
    error of the GraphQL client. *)
Theorem GetPullRequest_not_found (m : GithubClient.t)
    (prNumber commitRef : string) (h : list Call) (pr : Z)
    (query : PullRequestQuery.t) :
  Atoi prNumber = (pr, None) ->
  V4Client.Query_pull_request (GithubClient.V4 m) h (pull_request_vars m pr)
    = inr query ->
  Forall (fun c => CommitObject.OID c <> commitRef)
    (PullRequestQuery.Commits_Edges query) ->
  let err := fmt_Errorf not_found_format (op_string commitRef) in
  GetPullRequest m prNumber commitRef h =
    (h ++ [V4_Query pull_request_query (pull_request_vars m pr)],
     (None, Some err)) /\
  argument pull_request_query "commits" "last" (pull_request_vars m pr)
    = Some (Int32 100) /\
  Sprintf not_found_format commitRef =
    "commit with ref '" +:+ commitRef +:+ "' does not exist" /\
  Str.contains (Sprintf not_found_format commitRef) commitRef = true /\
  (forall e, err <> fmt_Errorf conversion_format (op_error e)) /\
  (forall text, err <> library_error text).
Proof.
  intros Ha Hq Hnone err. repeat split.
  - unfold GetPullRequest. rewrite Ha, Hq.
    by rewrite (scan_commits_none _ commitRef _ Hnone).
  - rewrite Sprintf_not_found. apply StrFacts.contains_middle.
  - intros e. discriminate.
  - intros text. discriminate.
Qed.

Lemma GetPullRequest_not_found_example :
  GetPullRequest (Fixture.github []) "7" "zzz" [] =
    ([V4_Query pull_request_query (pull_request_vars (Fixture.github []) 7)],
     (None, Some (fmt_Errorf not_found_format (op_string "zzz")))).
Proof.
  refine (proj1 (GetPullRequest_not_found (Fixture.github []) "7" "zzz" [] 7
                   Fixture.window eq_refl eq_refl _)).
  repeat constructor; discriminate.
Defined.

(** ** DeletePreviousComments *)

Section Deletions.

Variable m : GithubClient.t.

Lemma deletion_outcome_first h id ids id' :
  deletion_outcome m h (id :: ids) 0 id' =
  V3Client.Issues_DeleteComment (GithubClient.V3 m) h
    (GithubClient.Owner m) (GithubClient.Repository m) id'.
Proof. unfold deletion_outcome. simpl. by rewrite app_nil_r. Qed.

Lemma deletion_outcome_later h id ids i id' :
  deletion_outcome m h (id :: ids) (S i) id' =
  deletion_outcome m (h ++ [delete_call m id]) ids i id'.
Proof. unfold deletion_outcome. simpl. by rewrite <- app_assoc. Qed.

Lemma authored_by_cons login e edges :
  authored_by login (e :: edges) =
  if String.eqb (CommentEdge.Author_Login e) login
  then CommentEdge.DatabaseId e :: authored_by login edges
  else authored_by login edges.
Proof.
  unfold authored_by. rewrite filter_cons.
  destruct (String.eqb_spec (CommentEdge.Author_Login e) login);
    by case_decide.
Qed.

Lemma delete_comments_in_order login edges h :
  deleted_in_order m h (authored_by login edges) (delete_comments m login edges h).
Proof.
  revert h. induction edges as [|e edges IH]; intros h.
  - exists O. simpl. rewrite app_nil_r. repeat split. intros i id. by destruct i.
  - rewrite authored_by_cons. cbn [delete_comments].
    destruct (String.eqb (CommentEdge.Author_Login e) login); [|apply IH].
    set (id0 := CommentEdge.DatabaseId e).
    fold (delete_call m id0).
    destruct (V3Client.Issues_DeleteComment (GithubClient.V3 m) h
                (GithubClient.Owner m) (GithubClient.Repository m) id0)
      as [text|] eqn:Hcall.
    + exists 1%nat. split; [done|]. cbn [snd].
      exists O, id0, text. repeat split; [|lia].
      by rewrite deletion_outcome_first.
    + destruct (IH (h ++ [delete_call m id0])) as (k & Hh & Hr).
      exists (S k). split; [rewrite Hh; simpl; by rewrite <- app_assoc|].
      destruct (snd (delete_comments m login edges (h ++ [delete_call m id0])))
        as [err|].
      * destruct Hr as (j & id & text & -> & Hj & Hout & -> & Hbefore).
        exists (S j), id, text. repeat split; try done.
        { by rewrite deletion_outcome_later. }
        intros [|i] id' Hi Hid.
        { rewrite deletion_outcome_first. simpl in Hid. congruence. }
        rewrite deletion_outcome_later. apply Hbefore; [lia|done].
      * destruct Hr as [-> Hall]. split; [done|].
        intros [|i] id Hid.
        { rewrite deletion_outcome_first. simpl in Hid. congruence. }
        rewrite deletion_outcome_later. by apply Hall.
Qed.

End Deletions.

(** C7: [DeletePreviousComments] attempts deletions only for the comments
    whose author login is the viewer's, in list order; the calls it makes
    after the query are the deletions of a prefix of those comments.  With
    a nil result every one of them was deleted; with an error the failing
    deletion is the last call made, its error is the one returned, all
    deletions before it succeeded and stay made, and none is attempted
    after it. *)
Theorem DeletePreviousComments_sequential (m : GithubClient.t)
    (prNumber : string) (h : list Call) (pr : Z) (getComments : CommentsQuery.t) :
  Atoi prNumber = (pr, None) ->
  V4Client.Query_comments (GithubClient.V4 m) h (comments_vars m pr)
    = inr getComments ->
  let h1 := h ++ [V4_Query comments_query (comments_vars m pr)] in
  let ids := authored_by (CommentsQuery.Viewer_Login getComments)
               (CommentsQuery.Comments_Edges getComments) in
  let r := DeletePreviousComments m prNumber h in
  exists k : nat,
    fst r = h1 ++ map (delete_call m) (take k ids) /\
    match snd r with
    | None =>
        k = length ids /\
        forall i id, ids !! i = Some id -> deletion_outcome m h1 ids i id = None
    | Some err =>
        exists j id text,
          k = S j /\ ids !! j = Some id /\
          deletion_outcome m h1 ids j id = Some text /\
          err = library_error text /\
          forall i id', (i < j)%nat -> ids !! i = Some id' ->
                        deletion_outcome m h1 ids i id' = None
    end.
Proof.
  intros Ha Hq h1 ids r. subst r. unfold DeletePreviousComments.
  rewrite Ha, Hq. apply delete_comments_in_order.
Qed.

(** Three comments, two of them the viewer's (ids 11 and 13): both are
    deleted, in order, when the deletions succeed; when the deletion of 11
    fails, it is the only call after the query and its error is returned. *)
Lemma DeletePreviousComments_three_comments :
  let query := V4_Query comments_query (comments_vars (Fixture.github []) 7) in
  authored_by "bot" (CommentsQuery.Comments_Edges Fixture.three_comments) = [11; 13] /\
  DeletePreviousComments (Fixture.github []) "7" [] =
    ([query; V3_Issues_DeleteComment "owner" "name" 11;
      V3_Issues_DeleteComment "owner" "name" 13], None) /\
  DeletePreviousComments (Fixture.github [11]) "7" [] =
    ([query; V3_Issues_DeleteComment "owner" "name" 11],
     Some (library_error "403 Forbidden")) /\
  DeletePreviousComments (Fixture.github [13]) "7" [] =
    ([query; V3_Issues_DeleteComment "owner" "name" 11;
      V3_Issues_DeleteComment "owner" "name" 13],
     Some (library_error "403 Forbidden")).
Proof. repeat split. Qed.

Lemma DeletePreviousComments_sequential_example :
  exists k : nat,
    fst (DeletePreviousComments (Fixture.github [11]) "7" []) =
      [V4_Query comments_query (comments_vars (Fixture.github [11]) 7)] ++
      map (delete_call (Fixture.github [11])) (take k [11; 13]) /\
    k = 1%nat.
Proof.
  destruct (DeletePreviousComments_sequential (Fixture.github [11]) "7" [] 7
              Fixture.three_comments eq_refl eq_refl) as (k & Hh & Hr).
  exists k. split; [exact Hh|].
  cbn in Hr. destruct Hr as (j & id & text & -> & Hj & Hout & _ & _).
  destruct j as [|[|j]]; [done| |done].
  cbn in Hj. injection Hj as <-. discriminate Hout.
Defined.

(** ** UpdateCommitStatus *)

Lemma Sprintf_description status :
  Sprintf "Concourse CI build %s" status = "Concourse CI build " +:+ status.
Proof.
  change (Sprintf "Concourse CI build %s" status)
    with ("Concourse CI build " +:+ status +:+ "").
  by rewrite StrFacts.append_nil_r.
Qed.

Lemma path_Join_defaults : path_Join ["concourse-ci"; "status"] = "concourse-ci/status".
Proof. reflexivity. Qed.

(** C8: [UpdateCommitStatus] makes one CreateStatus call.  The state sent
    is the lower-cased status and the context is the path-join of the two
    context arguments, each replaced by its default only when empty: both
    empty give concourse-ci/status.  An empty description becomes the text
    Concourse CI build followed by the status as given; an empty target
    URL becomes the external URL, builds and the build id joined by
    slashes; non-empty arguments are sent as they are. *)
Theorem UpdateCommitStatus_sent (unicode_ToLower_Map os_Getenv : string -> string)
    (m : GithubClient.t)
    (commitRef baseContext statusContext status targetURL description : string)
    (h : list Call) :
  let r := UpdateCommitStatus unicode_ToLower_Map os_Getenv m commitRef
             baseContext statusContext status targetURL description h in
  exists sent : RepoStatus.t,
    fst r = h ++ [V3_Repositories_CreateStatus (GithubClient.Owner m)
                    (GithubClient.Repository m) commitRef sent] /\
    snd r = option_map library_error
              (V3Client.Repositories_CreateStatus (GithubClient.V3 m) h
                 (GithubClient.Owner m) (GithubClient.Repository m) commitRef sent) /\
    RepoStatus.State sent = strings_ToLower unicode_ToLower_Map status /\
    (all_bytes is_ascii status = true ->
     RepoStatus.State sent = map_bytes lower_byte status) /\
    RepoStatus.Context sent =
      path_Join [if Str.is_empty baseContext then "concourse-ci" else baseContext;
                 if Str.is_empty statusContext then "status" else statusContext] /\
    (baseContext = "" -> statusContext = "" ->
     RepoStatus.Context sent = "concourse-ci/status") /\
    (baseContext <> "" -> statusContext <> "" ->
     RepoStatus.Context sent = path_Join [baseContext; statusContext]) /\
    (description = "" ->
     RepoStatus.Description sent = "Concourse CI build " +:+ status /\
     Str.contains (RepoStatus.Description sent) status = true) /\
    (description <> "" -> RepoStatus.Description sent = description) /\
    (targetURL = "" ->
     RepoStatus.TargetURL sent =
       os_Getenv "ATC_EXTERNAL_URL" +:+ "/" +:+ "builds" +:+ "/" +:+ os_Getenv "BUILD_ID") /\
    (targetURL <> "" -> RepoStatus.TargetURL sent = targetURL).
Proof.
  intros r. subst r. unfold UpdateCommitStatus.
  match goal with
  | |- context [V3Client.Repositories_CreateStatus _ _ _ _ _ ?st] => exists st
  end.
  split; [by destruct (V3Client.Repositories_CreateStatus _ _ _ _ _ _)|].
  split; [by destruct (V3Client.Repositories_CreateStatus _ _ _ _ _ _)|].
  cbn [RepoStatus.State RepoStatus.Context RepoStatus.Description RepoStatus.TargetURL].
  split; [done|].
  split; [intros Hascii; unfold strings_ToLower; by rewrite Hascii|].
  split; [done|].
  split; [by intros -> ->|].
  split.
  { intros Hb Hs. apply StrFacts.is_empty_false in Hb, Hs. by rewrite Hb, Hs. }
  split.
  { intros ->. cbn [Str.is_empty]. rewrite Sprintf_description.
    split; [done|]. apply StrFacts.contains_app_r.
    rewrite <- (StrFacts.append_nil_r status) at 1. apply StrFacts.contains_prefix. }
  split.
  { intros Hd. apply StrFacts.is_empty_false in Hd. by rewrite Hd. }
  split.
  { by intros ->. }
  intros Ht. apply StrFacts.is_empty_false in Ht. by rewrite Ht.
Qed.

(** Every optional argument empty, status SUCCESS. *)
Lemma UpdateCommitStatus_sent_example :
  UpdateCommitStatus (fun s => s) Fixture.env (Fixture.github []) "abc" "" ""
    "SUCCESS" "" "" [] =
  ([V3_Repositories_CreateStatus "owner" "name" "abc"
      {| RepoStatus.State := "success";
         RepoStatus.TargetURL := "https://ci.example.com/builds/1234";
         RepoStatus.Description := "Concourse CI build SUCCESS";
         RepoStatus.Context := "concourse-ci/status" |}], None).
Proof.
  destruct (UpdateCommitStatus_sent (fun s => s) Fixture.env (Fixture.github [])
              "abc" "" "" "SUCCESS" "" "" [])
    as (sent & Hh & Hr & _ & Hstate & _ & Hctx & _ & Hdesc & _ & Hurl & _).
  specialize (Hstate eq_refl). specialize (Hctx eq_refl eq_refl).
  destruct (Hdesc eq_refl) as [Hd _]. specialize (Hurl eq_refl).
  destruct sent as [st url d ctx]. cbn in Hstate, Hctx, Hd, Hurl. subst.
  apply injective_projections; [exact Hh | exact Hr].
Defined.

(** ** The paginated operations *)

Lemma fold_left_append {A B} (f : B -> A) (l : list B) (init : list A) :
  fold_left (fun acc x => acc ++ [f x]) l init = init ++ map f l.
Proof.
  revert init. induction l as [|x l IH]; intros init; simpl.
  - by rewrite app_nil_r.
  - by rewrite IH, <- app_assoc.
Qed.

(** *** GetChangedFiles *)

Lemma GetChangedFiles_loop_calls m pr fuel :
  forall offset cfo h h' result,
    GetChangedFiles_loop fuel m pr offset cfo h = Some (h', result) ->
    exists offsets,
      h' = h ++ map (fun o => V4_Query file_query (files_vars m pr o)) offsets.
Proof.
  induction fuel as [|fuel IH]; intros offset cfo h h' result; simpl; [done|].
  destruct (V4Client.Query_files _ _ _) as [err|filequery].
  - intros [= <- _]. by exists [offset].
  - destruct (PageInfo.HasNextPage _); simpl.
    + intros H. destruct (IH _ _ _ _ _ H) as [offsets ->].
      exists (offset :: offsets). simpl. by rewrite <- app_assoc.
    + intros [= <- _]. by exists [offset].
Qed.

(** C9: the commit ref does not reach the result of [GetChangedFiles]: two
    calls that differ only in it make the same calls and return the same
    list, and every call made is the file query of the pull request, its
    variables built from owner, name, number and cursor alone. *)
Theorem GetChangedFiles_ignores_commitRef (fuel : nat) (m : GithubClient.t)
    (prNumber r1 r2 : string) (h : list Call) :
  GetChangedFiles fuel m prNumber r1 h = GetChangedFiles fuel m prNumber r2 h /\
  (forall h' result,
     GetChangedFiles fuel m prNumber r1 h = Some (h', result) ->
     exists offsets,
       h' = h ++ map (fun o => V4_Query file_query
                                 (files_vars m (fst (Atoi prNumber)) o)) offsets).
Proof.
  split; [reflexivity|].
  intros h' result. unfold GetChangedFiles.
  destruct (Atoi prNumber) as [pr [err|]]; simpl.
  - intros [= <- _]. exists []. simpl. by rewrite app_nil_r.
  - apply GetChangedFiles_loop_calls.
Qed.

(** Two pages of files: both are fetched, the second by the first's
    cursor, for either commit ref. *)
Lemma GetChangedFiles_ignores_commitRef_example :
  GetChangedFiles 2 (Fixture.github []) "7" "abc" [] =
    Some ([V4_Query file_query (files_vars (Fixture.github []) 7 "");
           V4_Query file_query (files_vars (Fixture.github []) 7 "f1")],
          (map ChangedFileObject.Build_t ["a.go"; "b.go"; "c.go"], None)) /\
  GetChangedFiles 2 (Fixture.github []) "7" "def" [] =
    GetChangedFiles 2 (Fixture.github []) "7" "abc" [].
Proof.
  split; [reflexivity|].
  exact (proj1 (GetChangedFiles_ignores_commitRef 2 (Fixture.github []) "7"
                  "def" "abc" [])).
Defined.

(** *** SearchPullRequests: the emitted labels *)

Lemma search_labels_doubled p :
  search_labels p =
  replicate (length (SearchNode.Labels_Edges p)) LabelObject.zero ++
  SearchNode.Labels_Edges p.
Proof.
  unfold search_labels.
  rewrite (fold_left_append (fun l => l)). by rewrite map_id.
Qed.

Lemma search_node_emits response p :
  search_node response p =
  response ++ map (search_emitted p) (SearchNode.Commits_Edges p).
Proof.
  unfold search_node. rewrite search_labels_doubled.
  apply (fold_left_append (search_emitted p)).
Qed.

Lemma search_nodes_emit nodes : forall response,
  fold_left search_node nodes response =
  response ++ flat_map (fun p => map (search_emitted p) (SearchNode.Commits_Edges p)) nodes.
Proof.
  induction nodes as [|p nodes IH]; intros response; simpl.
  - by rewrite app_nil_r.
  - by rewrite IH, search_node_emits, <- app_assoc.
Qed.

Lemma SearchPullRequests_loop_emitted m fuel :
  forall vars response h h' result,
    Forall (emitted_by m) response ->
    SearchPullRequests_loop fuel m vars response h = Some (h', (result, None)) ->
    Forall (emitted_by m) result.
Proof.
  induction fuel as [|fuel IH]; intros vars response h h' result Hinv; simpl; [done|].
  destruct (V4Client.Query_search _ _ _) as [err|page] eqn:Hq; [done|].
  assert (Hnew : Forall (emitted_by m)
            (fold_left search_node (SearchQuery.Search_Nodes page) response)).
  { rewrite search_nodes_emit. apply Forall_app. split; [done|].
    apply List.Forall_forall. intros pr Hin.
    apply in_flat_map in Hin as (p & Hp & Hpr).
    apply in_map_iff in Hpr as (c & <- & Hc).
    by exists h, vars, page, p, c. }
  destruct (PageInfo.HasNextPage _); simpl.
  - by apply IH.
  - by intros [= _ <-].
Qed.

(** C10: a pull request that [SearchPullRequests] returns comes from a
    node of a search answer, and its Labels list is twice as long as the
    node's label edges: first as many zero-valued labels as there are
    edges, then the fetched labels. *)
Theorem SearchPullRequests_labels_doubled (fuel : nat) (m : GithubClient.t)
    (query : string) (limit : Z) (h h' : list Call)
    (response : list PullRequest.t) (pr : PullRequest.t) :
  SearchPullRequests fuel m query limit h = Some (h', (response, None)) ->
  In pr response ->
  exists (h0 : list Call) (vars : gmap string value) (page : SearchQuery.t)
         (p : SearchNode.t),
    V4Client.Query_search (GithubClient.V4 m) h0 vars = inr page /\
    In p (SearchQuery.Search_Nodes page) /\
    PullRequest.PullRequestObject pr = SearchNode.PullRequestObject p /\
    In (PullRequest.Tip pr) (SearchNode.Commits_Edges p) /\
    let k := length (SearchNode.Labels_Edges p) in
    PullRequest.Labels pr = replicate k LabelObject.zero ++ SearchNode.Labels_Edges p /\
    length (PullRequest.Labels pr) = (2 * k)%nat /\
    take k (PullRequest.Labels pr) = replicate k LabelObject.zero /\
    drop k (PullRequest.Labels pr) = SearchNode.Labels_Edges p.
Proof.
  intros Hrun Hin.
  assert (Hall : Forall (emitted_by m) response)
    by (eapply SearchPullRequests_loop_emitted; [apply Forall_nil_2 | exact Hrun]).
  rewrite List.Forall_forall in Hall.
  destruct (Hall pr Hin) as (h0 & vars & page & p & c & Hq & Hp & Hc & ->).
  exists h0, vars, page, p. cbn [search_emitted PullRequest.PullRequestObject
    PullRequest.Tip PullRequest.Labels].
  repeat split; try done.
  - rewrite length_app, length_replicate. lia.
  - rewrite take_app_length'; [done|by rewrite length_replicate].
  - rewrite drop_app_length'; [done|by rewrite length_replicate].
Qed.

(** One page, one node with the labels bug and wip: four labels come back,
    the first two with empty names. *)
Lemma SearchPullRequests_labels_example :
  option_map (fun r => map PullRequest.Labels (fst (snd r)))
    (SearchPullRequests 1 Fixture.labelled "is:pr" 50 []) =
  Some [map LabelObject.Build_t [""; ""; "bug"; "wip"]].
Proof. reflexivity. Qed.

Lemma SearchPullRequests_labels_doubled_example :
  let pr := search_emitted (Fixture.node 3 ["bug"; "wip"]) (Fixture.commit "oid3" "tip") in
  exists (h0 : list Call) (vars : gmap string value) (page : SearchQuery.t)
         (p : SearchNode.t),
    V4Client.Query_search (GithubClient.V4 Fixture.labelled) h0 vars = inr page /\
    In p (SearchQuery.Search_Nodes page) /\
    PullRequest.PullRequestObject pr = SearchNode.PullRequestObject p /\
    In (PullRequest.Tip pr) (SearchNode.Commits_Edges p) /\
    let k := length (SearchNode.Labels_Edges p) in
    PullRequest.Labels pr = replicate k LabelObject.zero ++ SearchNode.Labels_Edges p /\
    length (PullRequest.Labels pr) = (2 * k)%nat /\
    take k (PullRequest.Labels pr) = replicate k LabelObject.zero /\
    drop k (PullRequest.Labels pr) = SearchNode.Labels_Edges p.
Proof.
  intros pr.
  eapply (SearchPullRequests_labels_doubled 1 Fixture.labelled "is:pr" 50 []).
  - reflexivity.
  - left. reflexivity.
Defined.

(** *** SearchPullRequests: the cursor *)

(** No tag of the search query binds an argument to [prCursor]: storing the
    cursor under that key changes nothing the query document passes. *)
Lemma argument_prCursor field arg cursor (vars : gmap string value) :
  argument search_query field arg (<["prCursor" := cursor]> vars) =
  argument search_query field arg vars.
Proof.
  unfold argument, graphql.
  repeat (cbn [assoc];
          match goal with
          | |- context [String.eqb ?a ?b] => destruct (String.eqb a b)
          end);
    cbn [assoc]; try done; by apply lookup_insert_ne.
Qed.

Lemma tagged_with_after :
  argument search_query "search" "after" (search_vars "is:pr" 50) = None /\
  argument file_query "files" "after" (files_vars (Fixture.github []) 7 "f1")
    = Some (githubv4_String "f1").
Proof. split; reflexivity. Qed.

(** When the first page has a next one and the client answers by the
    arguments it is passed, every iteration fetches that same page. *)
Lemma SearchPullRequests_loop_stuck m :
  answers_by_arguments m ->
  forall fuel vars response h page,
    V4Client.Query_search (GithubClient.V4 m) h vars = inr page ->
    PageInfo.HasNextPage (SearchQuery.Search_PageInfo page) = true ->
    SearchPullRequests_loop fuel m vars response h = None.
Proof.
  intros Hargs fuel. induction fuel as [|fuel IH]; intros vars response h page Hq Hnext;
    simpl; [done|].
  rewrite Hq, Hnext. simpl. apply (IH _ _ _ page); [|done].
  rewrite <- Hq. apply Hargs. intros field arg. apply argument_prCursor.
Qed.

Lemma SearchPullRequests_single_page m query limit h page fuel :
  V4Client.Query_search (GithubClient.V4 m) h (search_vars query limit) = inr page ->
  PageInfo.HasNextPage (SearchQuery.Search_PageInfo page) = false ->
  SearchPullRequests (S fuel) m query limit h =
    Some (h ++ [V4_Query search_query (search_vars query limit)],
          (flat_map (fun p => map (search_emitted p) (SearchNode.Commits_Edges p))
             (SearchQuery.Search_Nodes page), None)).
Proof.
  intros Hq Hnext. unfold SearchPullRequests. simpl.
  by rewrite Hq, Hnext, search_nodes_emit.
Qed.

Lemma github_answers_by_arguments failing :
  answers_by_arguments (Fixture.github failing).
Proof. intros h1 h2 v1 v2 Hsame. simpl. by rewrite (Hsame "search" "after"). Qed.

(** C1, on two pages of results of which the second has no next page:
    the cursor of the first page is stored under [prCursor], which no
    argument of the search field is bound to, so the second fetch passes
    what the first passed; the client serves the first page again and the
    loop does not leave, whatever the bound on its iterations.  Read with
    a flag that is never set, the loop leaves after the first page and
    returns its one pull request.  [GetChangedFiles], whose files field
    takes the cursor, returns both of its pages. *)
Theorem SearchPullRequests_second_page_unreached :
  let m := Fixture.github [] in
  option_map (fun p => PageInfo.HasNextPage (SearchQuery.Search_PageInfo p))
    (last Fixture.two_search_pages) = Some false /\
  (forall field arg cursor,
     argument search_query field arg
       (<["prCursor" := githubv4_String cursor]> (search_vars "is:pr" 50)) =
     argument search_query field arg (search_vars "is:pr" 50)) /\
  (forall fuel, SearchPullRequests fuel m "is:pr" 50 [] = None) /\
  snd (SearchPullRequests_flag_unset m "is:pr" 50 []) =
    ([search_emitted (Fixture.node 1 ["bug"]) (Fixture.commit "oid1" "tip")], None) /\
  option_map snd (GetChangedFiles 2 m "7" "abc" []) =
    Some (map ChangedFileObject.Build_t ["a.go"; "b.go"; "c.go"], None).
Proof.
  intros m. split; [reflexivity|].
  split; [intros; apply argument_prCursor|].
  split; [|split; reflexivity].
  intros fuel. unfold SearchPullRequests.
  apply (SearchPullRequests_loop_stuck m (github_answers_by_arguments [])
           fuel _ _ _ (Fixture.search_page 1 ["bug"] "c1" true));
    reflexivity.
Qed.

(** * Further properties *)

(** ** Pull request numbers *)

Lemma Atoi_unsigned d :
  d <> Decimal.Nil ->
  Atoi (NilEmpty.string_of_uint d) =
  let n := Z.of_uint d in
  if maxInt64 <? n
  then (maxInt64, Some (strconv_NumError "Atoi" (NilEmpty.string_of_uint d) ErrRange))
  else if n <? minInt64
  then (minInt64, Some (strconv_NumError "Atoi" (NilEmpty.string_of_uint d) ErrRange))
  else (n, None).
Proof.
  intros Hd.
  assert (Hparse : NilZero.uint_of_string (NilEmpty.string_of_uint d) = Some d).
  { rewrite <- (NilZero.usu d Hd). by destruct d. }
  destruct d; [done|..]; unfold Atoi; cbn [NilEmpty.string_of_uint] in *;
    by rewrite Hparse.
Qed.

Lemma Atoi_negative d :
  d <> Decimal.Nil ->
  Atoi (String "-" (NilEmpty.string_of_uint d)) =
  let n := - Z.of_uint d in
  if maxInt64 <? n
  then (maxInt64,
        Some (strconv_NumError "Atoi" (String "-" (NilEmpty.string_of_uint d)) ErrRange))
  else if n <? minInt64
  then (minInt64,
        Some (strconv_NumError "Atoi" (String "-" (NilEmpty.string_of_uint d)) ErrRange))
  else (n, None).
Proof.
  intros Hd.
  assert (Hparse : NilZero.uint_of_string (NilEmpty.string_of_uint d) = Some d).
  { rewrite <- (NilZero.usu d Hd). by destruct d. }
  unfold Atoi. by rewrite Hparse.
Qed.

Lemma of_uint_to_uint p : Z.of_uint (Pos.to_uint p) = Z.pos p.
Proof. unfold Z.of_uint. by rewrite DecimalPos.Unsigned.of_to. Qed.

Lemma Atoi_Itoa n : minInt64 <= n <= maxInt64 -> Atoi (Itoa n) = (n, None).
Proof.
  intros [Hlo Hhi]. destruct n as [|p|p].
  - reflexivity.
  - unfold Itoa. cbn [Z.to_int NilZero.string_of_int].
    pose proof (DecimalPos.Unsigned.to_uint_nonnil p) as Hd.
    replace (NilZero.string_of_uint (Pos.to_uint p))
      with (NilEmpty.string_of_uint (Pos.to_uint p))
      by (by destruct (Pos.to_uint p)).
    rewrite (Atoi_unsigned _ Hd). cbv zeta. rewrite of_uint_to_uint.
    destruct (Z.ltb_spec maxInt64 (Z.pos p)); [lia|].
    destruct (Z.ltb_spec (Z.pos p) minInt64); [lia|done].
  - unfold Itoa. cbn [Z.to_int NilZero.string_of_int].
    pose proof (DecimalPos.Unsigned.to_uint_nonnil p) as Hd.
    replace (NilZero.string_of_uint (Pos.to_uint p))
      with (NilEmpty.string_of_uint (Pos.to_uint p))
      by (by destruct (Pos.to_uint p)).
    rewrite (Atoi_negative _ Hd). cbv zeta. rewrite of_uint_to_uint.
    change (- Z.pos p) with (Z.neg p).
    destruct (Z.ltb_spec maxInt64 (Z.neg p)); [lia|].
    destruct (Z.ltb_spec (Z.neg p) minInt64); [lia|done].
Qed.

(** X1: the PR field of a derived Version parses back to the pull
    request's number when that number is an [int], so [GetPullRequest]
    called with it passes the conversion and queries that number. *)
Theorem Version_PR_parses_back (p : PullRequest.t) (m : GithubClient.t)
    (commitRef : string) (h : list Call) :
  let number := PullRequestObject.Number (PullRequest.PullRequestObject p) in
  minInt64 <= number <= maxInt64 ->
  Atoi (Version.PR (NewVersion p)) = (number, None) /\
  fst (GetPullRequest m (Version.PR (NewVersion p)) commitRef h) =
    h ++ [V4_Query pull_request_query (pull_request_vars m number)].
Proof.
  intros number Hrange.
  assert (Ha : Atoi (Version.PR (NewVersion p)) = (number, None))
    by (by apply Atoi_Itoa).
  split; [exact Ha|].
  unfold GetPullRequest. rewrite Ha.
  destruct (V4Client.Query_pull_request _ _ _); [done|].
  by destruct (scan_commits _ _ _).
Qed.

Lemma Version_PR_parses_back_example :
  let p := search_emitted (Fixture.node (-12) []) (Fixture.commit "abc" "tip") in
  Atoi (Version.PR (NewVersion p)) = (-12, None) /\
  fst (GetPullRequest (Fixture.github []) (Version.PR (NewVersion p)) "abc" []) =
    [V4_Query pull_request_query (pull_request_vars (Fixture.github []) (-12))].
Proof.
  intros p.
  apply (Version_PR_parses_back p (Fixture.github []) "abc" []).
  unfold minInt64, maxInt64. simpl. lia.
Defined.




Lemma githubv4_Int_congruent n1 n2 :
  (n1 - n2) mod 2 ^ 32 = 0 -> githubv4_Int n1 = githubv4_Int n2.
Proof.
  intros H. unfold githubv4_Int. do 2 f_equal.
  apply Z.mod_divide in H; [|lia]. destruct H as [k Hk].
  replace (n1 + 2 ^ 31) with (n2 + 2 ^ 31 + k * 2 ^ 32) by lia.
  apply Z_mod_plus_full.
Qed.

Lemma githubv4_Int_small n :
  - 2 ^ 31 <= n < 2 ^ 31 -> githubv4_Int n = Int32 n.
Proof.
  intros H. unfold githubv4_Int. f_equal.
  rewrite Z.mod_small; lia.
Qed.

(** X3: the number reaches the GraphQL query as an [int32].  A number in
    the [int32] range is passed as it is; two number strings whose values
    differ by a multiple of 2^32 make [GetPullRequest] issue the same query
    and return the same result. *)
Theorem GetPullRequest_number_wraps (m : GithubClient.t)
    (s1 s2 commitRef : string) (h : list Call) (n1 n2 : Z) :
  Atoi s1 = (n1, None) -> Atoi s2 = (n2, None) ->
  (n1 - n2) mod 2 ^ 32 = 0 ->
  GetPullRequest m s1 commitRef h = GetPullRequest m s2 commitRef h /\
  (- 2 ^ 31 <= n1 < 2 ^ 31 ->
   pull_request_vars m n1 !! "prNumber" = Some (Int32 n1)).
Proof.
  intros H1 H2 Hmod. split.
  - unfold GetPullRequest, pull_request_vars. rewrite H1, H2.
    by rewrite (githubv4_Int_congruent n1 n2 Hmod).
  - intros Hsmall. unfold pull_request_vars.
    rewrite (githubv4_Int_small n1 Hsmall). reflexivity.
Qed.

Lemma GetPullRequest_number_wraps_example :
  GetPullRequest (Fixture.github []) "4294967303" "bbb" [] =
  GetPullRequest (Fixture.github []) "+007" "bbb" [].
Proof.
  exact (proj1 (GetPullRequest_number_wraps (Fixture.github []) "4294967303" "+007"
                  "bbb" [] 4294967303 7 eq_refl eq_refl eq_refl)).
Defined.

(** ** Validation, repository identifiers, metadata *)

Lemma Validate_states_nil_valid states :
  Validate_states states = None -> Forall valid_state states.
Proof.
  induction states as [|state rest IH]; [constructor|].
  cbn [Validate_states].
  destruct (String.eqb_spec state PullRequestStateOpen) as [->|_];
    [intros H; constructor; [by left|by apply IH]|].
  destruct (String.eqb_spec state PullRequestStateClosed) as [->|_];
    [intros H; constructor; [by right; left|by apply IH]|].
  destruct (String.eqb_spec state PullRequestStateMerged) as [->|_];
    [intros H; constructor; [by right; right|by apply IH]|].
  discriminate.
Qed.

(** X4: [Validate] returns nil exactly for the Sources with a token, a
    repository, both endpoint overrides or neither, and only valid states. *)
Theorem Validate_nil_iff (s : Source.t) :
  snd (Validate s) = None <->
  Source.AccessToken s <> "" /\ Source.Repository s <> "" /\
  (Source.V3Endpoint s = "" <-> Source.V4Endpoint s = "") /\
  Forall valid_state (Source.States s).
Proof.
  unfold Validate.
  case_empty (Source.AccessToken s); case_empty (Source.Repository s);
    case_empty (Source.V3Endpoint s); case_empty (Source.V4Endpoint s);
    cbn [negb andb fst snd]; split;
    try discriminate; try (intros (? & ? & ? & ?); tauto).
  all: try (intros H; repeat split; try tauto; try congruence;
            by apply Validate_states_nil_valid).
  all: intros (_ & _ & _ & H); by apply Validate_states_valid.
Qed.

(** *** Split and Join *)

Lemma Split_slash_nonempty s : strings_Split s "/" <> [].
Proof.
  intros H. apply (f_equal length) in H. rewrite Split_slash_length in H.
  discriminate.
Qed.

Lemma Join_cons e e' rest sep :
  strings_Join (e :: e' :: rest) sep = e +:+ sep +:+ strings_Join (e' :: rest) sep.
Proof. reflexivity. Qed.

Lemma Join_Split_slash s : strings_Join (strings_Split s "/") "/" = s.
Proof.
  induction s as [|c s IH]; [done|].
  rewrite Split_slash_cons.
  pose proof (Split_slash_nonempty s) as Hne.
  destruct (Ascii.eqb_spec c "/") as [->|_];
    destruct (strings_Split s "/") as [|piece pieces]; try done.
  - rewrite Join_cons, IH. reflexivity.
  - destruct pieces as [|piece' pieces].
    + cbn [strings_Join] in *. by rewrite IH.
    + rewrite Join_cons in *. rewrite StrFacts.append_cons. by rewrite IH.
Qed.

Lemma Split_slash_pieces s :
  Forall (fun piece => Str.count "/" piece = O) (strings_Split s "/").
Proof.
  induction s as [|c s IH]; [by repeat constructor|].
  rewrite Split_slash_cons.
  destruct (Ascii.eqb_spec c "/") as [->|Hne].
  - by constructor.
  - destruct (strings_Split s "/") as [|piece pieces].
    { constructor; [|constructor]. simpl. by destruct (Ascii.eqb_spec c "/"). }
    inversion IH as [|? ? Hp Hps]; subst. constructor; [|done].
    simpl. destruct (Ascii.eqb_spec c "/"); [done|]. by rewrite Hp.
Qed.

(** X5: splitting loses nothing.  When [parseRepository] accepts an
    identifier, the identifier is the owner, a slash and the name, and
    neither part holds a slash. *)
Theorem parseRepository_accepts (s owner name : string) :
  parseRepository s = (owner, name, None) ->
  s = owner +:+ "/" +:+ name /\
  Str.count "/" owner = O /\ Str.count "/" name = O /\
  Str.count "/" s = 1%nat.
Proof.
  unfold parseRepository.
  pose proof (Join_Split_slash s) as Hjoin.
  pose proof (Split_slash_pieces s) as Hpieces.
  pose proof (Split_slash_length s) as Hlen.
  destruct (strings_Split s "/") as [|o [|n [|x rest]]]; simpl; try discriminate.
  intros [= <- <-].
  apply Forall_cons in Hpieces as [Ho Hrest].
  apply Forall_cons in Hrest as [Hn _].
  split; [symmetry; exact Hjoin|].
  split; [exact Ho|]. split; [exact Hn|].
  cbn [length] in Hlen. congruence.
Qed.

Lemma parseRepository_accepts_example :
  "telia-oss/github-pr-resource" = "telia-oss" +:+ "/" +:+ "github-pr-resource" /\
  Str.count "/" "telia-oss" = O /\ Str.count "/" "github-pr-resource" = O /\
  Str.count "/" "telia-oss/github-pr-resource" = 1%nat.
Proof.
  exact (parseRepository_accepts "telia-oss/github-pr-resource" "telia-oss"
           "github-pr-resource" eq_refl).
Defined.

(** *** Metadata *)

(** X6: fields added one after another end up behind the fields already
    there, in the order of the calls; nothing is replaced, so a name added
    twice is kept twice. *)
Theorem Metadata_Add_in_order (m : list MetadataField.t)
    (fields : list (string * string)) :
  fold_left (fun m '(name, value) => Metadata_Add m name value) fields m =
  m ++ map (fun '(name, value) =>
              {| MetadataField.Name := name; MetadataField.Value := value |}) fields.
Proof.
  revert m. induction fields as [|[name value] fields IH]; intros m; simpl.
  - by rewrite app_nil_r.
  - rewrite IH. unfold Metadata_Add. by rewrite <- app_assoc.
Qed.

(** ** Status contexts *)

Lemma plain_name_not_rooted e t :
  plain_name e -> String.prefix "/" (e +:+ t) = false.
Proof.
  intros (Hne & _ & _ & Hc). destruct e as [|c e]; [done|].
  rewrite StrFacts.append_cons, prefix_slash.
  simpl in Hc. destruct (Ascii.eqb c "/"); [done|done].
Qed.

Lemma clean_element_plain rooted out e :
  plain_name e -> clean_element rooted out e = e :: out.
Proof.
  intros (H1 & H2 & H3 & _). unfold clean_element.
  destruct (String.eqb_spec e ""); [done|].
  destruct (String.eqb_spec e "."); [done|].
  by destruct (String.eqb_spec e "..").
Qed.

Lemma path_Join_plain base name :
  plain_name base -> plain_name name ->
  path_Join [base; name] = base +:+ "/" +:+ name.
Proof.
  intros Hb Hn.
  assert (Hbase : Str.is_empty base = false)
    by (apply StrFacts.is_empty_false, Hb).
  cbn [path_Join]. rewrite Hbase. rewrite Join_cons. cbn [strings_Join].
  unfold path_Clean.
  assert (Hwhole : Str.is_empty (base +:+ "/" +:+ name) = false)
    by (destruct base; [done|reflexivity]).
  rewrite Hwhole, (plain_name_not_rooted base _ Hb).
  rewrite Split_slash_app by apply Hb.
  rewrite Split_slash_free by apply Hn.
  cbn [fold_left].
  rewrite (clean_element_plain _ _ base Hb), (clean_element_plain _ _ name Hn).
  cbn [rev app]. rewrite Join_cons. cbn [strings_Join].
  by rewrite Hwhole.
Qed.

(** X7: when each context argument is empty or a plain name (no slash,
    not a dot element), the context sent with the status is the base
    context, a slash and the status context, defaults filled in. *)
Theorem UpdateCommitStatus_plain_context
    (unicode_ToLower_Map os_Getenv : string -> string) (m : GithubClient.t)
    (commitRef baseContext statusContext status targetURL description : string)
    (h : list Call) :
  baseContext = "" \/ plain_name baseContext ->
  statusContext = "" \/ plain_name statusContext ->
  exists sent : RepoStatus.t,
    fst (UpdateCommitStatus unicode_ToLower_Map os_Getenv m commitRef baseContext
           statusContext status targetURL description h) =
      h ++ [V3_Repositories_CreateStatus (GithubClient.Owner m)
              (GithubClient.Repository m) commitRef sent] /\
    RepoStatus.Context sent =
      (if Str.is_empty baseContext then "concourse-ci" else baseContext) +:+ "/" +:+
      (if Str.is_empty statusContext then "status" else statusContext).
Proof.
  intros Hb Hs. unfold UpdateCommitStatus.
  match goal with
  | |- context [V3Client.Repositories_CreateStatus _ _ _ _ _ ?st] => exists st
  end.
  split; [by destruct (V3Client.Repositories_CreateStatus _ _ _ _ _ _)|].
  cbn [RepoStatus.Context]. apply path_Join_plain.
  - destruct Hb as [->|Hb]; [by repeat split|].
    by rewrite (proj2 (StrFacts.is_empty_false _) (proj1 Hb)).
  - destruct Hs as [->|Hs]; [by repeat split|].
    by rewrite (proj2 (StrFacts.is_empty_false _) (proj1 Hs)).
Qed.

Lemma UpdateCommitStatus_plain_context_example :
  exists sent : RepoStatus.t,
    fst (UpdateCommitStatus (fun s => s) Fixture.env (Fixture.github []) "abc" ""
           "unit-tests" "pending" "" "" []) =
      [V3_Repositories_CreateStatus "owner" "name" "abc" sent] /\
    RepoStatus.Context sent = "concourse-ci/unit-tests".
Proof.
  apply (UpdateCommitStatus_plain_context (fun s => s) Fixture.env (Fixture.github [])
           "abc" "" "unit-tests" "pending" "" "" []).
  - by left.
  - right. by repeat split.
Defined.

(** ** Pagination to the last page *)

Lemma files_edges_copied (edges cfo : list ChangedFileObject.t) :
  fold_left
    (fun cfo f => cfo ++ [{| ChangedFileObject.Path := ChangedFileObject.Path f |}])
    edges cfo = cfo ++ edges.
Proof.
  rewrite (fold_left_append
             (fun f => {| ChangedFileObject.Path := ChangedFileObject.Path f |})).
  f_equal. induction edges as [|[path] edges IH]; [done|]. simpl. by rewrite IH.
Qed.

Lemma GetChangedFiles_loop_exhausts m pr pages :
  forall final extra offset cfo h,
    files_answers m pr h offset (pages ++ [final]) ->
    Forall (fun page => PageInfo.HasNextPage (FileQuery.Files_PageInfo page) = true)
      pages ->
    PageInfo.HasNextPage (FileQuery.Files_PageInfo final) = false ->
    GetChangedFiles_loop (length pages + 1 + extra) m pr offset cfo h =
      Some (h ++ map (fun o => V4_Query file_query (files_vars m pr o))
                   (files_offsets offset (pages ++ [final])),
            (cfo ++ flat_map FileQuery.Files_Edges (pages ++ [final]), None)).
Proof.
  induction pages as [|page pages IH]; intros final extra offset cfo h Hans Hmore Hlast.
  - destruct Hans as [Hq _]. simpl. rewrite Hq, Hlast, files_edges_copied. simpl.
    by rewrite app_nil_r.
  - destruct Hans as [Hq Hrest]. apply Forall_cons in Hmore as [Hnext Hmore].
    cbn [length Nat.add GetChangedFiles_loop]. rewrite Hq, Hnext. cbn [negb].
    rewrite files_edges_copied.
    rewrite (IH final extra _ _ _ Hrest Hmore Hlast).
    simpl. by rewrite <- !app_assoc.
Qed.

(** X8: [GetChangedFiles] follows the cursors to the last page.  When the
    client answers the successive queries with pages that each announce a
    next page, and then with one that does not, the call makes one query
    per page (the first with the empty cursor, each later one with the end
    cursor of the page before) and returns the files of all pages, each
    once, in page order; one iteration per page is enough. *)
Theorem GetChangedFiles_exhausts (m : GithubClient.t) (prNumber commitRef : string)
    (h : list Call) (pr : Z) (pages : list FileQuery.t) (final : FileQuery.t)
    (extra : nat) :
  Atoi prNumber = (pr, None) ->
  files_answers m pr h "" (pages ++ [final]) ->
  Forall (fun page => PageInfo.HasNextPage (FileQuery.Files_PageInfo page) = true)
    pages ->
  PageInfo.HasNextPage (FileQuery.Files_PageInfo final) = false ->
  GetChangedFiles (length pages + 1 + extra) m prNumber commitRef h =
    Some (h ++ map (fun o => V4_Query file_query (files_vars m pr o))
                 (files_offsets "" (pages ++ [final])),
          (flat_map FileQuery.Files_Edges (pages ++ [final]), None)).
Proof.
  intros Ha Hans Hmore Hlast. unfold GetChangedFiles. rewrite Ha.
  by rewrite (GetChangedFiles_loop_exhausts m pr pages final extra "" [] h).
Qed.

Lemma GetChangedFiles_exhausts_example :
  GetChangedFiles 5 (Fixture.github []) "7" "abc" [] =
    Some ([V4_Query file_query (files_vars (Fixture.github []) 7 "");
           V4_Query file_query (files_vars (Fixture.github []) 7 "f1")],
          (map ChangedFileObject.Build_t ["a.go"; "b.go"; "c.go"], None)).
Proof.
  apply (GetChangedFiles_exhausts (Fixture.github []) "7" "abc" [] 7
           [Fixture.files_page ["a.go"; "b.go"] "f1" true]
           (Fixture.files_page ["c.go"] "f2" false) 3).
  - reflexivity.
  - repeat split.
  - by repeat constructor.
  - reflexivity.
Defined.

Section RestFacts.

Variable PullRequests_ListFiles :
  V3Client.t -> list Event -> string -> string -> Z -> ListOptions.t ->
  string + (list CommitFile.t * Response.t).

Let loop := ListModifiedFiles_loop PullRequests_ListFiles.

Lemma append_filenames_all files result names :
  filenames result = Some names ->
  append_filenames files result = Some (files ++ names).
Proof.
  revert files names. induction result as [|f result IH]; intros files names; simpl.
  - intros [= <-]. by rewrite app_nil_r.
  - destruct (CommitFile.Filename f) as [name|]; [|done].
    destruct (filenames result) as [names'|] eqn:Hrest; [|done].
    intros [= <-]. rewrite (IH _ names' eq_refl). by rewrite <- app_assoc.
Qed.

Lemma append_filenames_nil files result :
  filenames result = None -> append_filenames files result = None.
Proof.
  revert files. induction result as [|f result IH]; intros files; simpl; [done|].
  destruct (CommitFile.Filename f) as [name|]; [|done].
  destruct (filenames result) as [names'|]; [done|]. intros _. by apply IH.
Qed.

Lemma filenames_nameless result :
  Exists (fun f => CommitFile.Filename f = None) result -> filenames result = None.
Proof.
  induction 1 as [f rest Hf|f rest _ IH]; simpl.
  - by rewrite Hf.
  - rewrite IH. by destruct (CommitFile.Filename f).
Qed.

Lemma ListModifiedFiles_loop_exhausts m prNumber pages :
  forall final names extra opt files h,
    list_files_answers PullRequests_ListFiles m prNumber h opt (pages ++ [final]) ->
    Forall (fun page => Response.NextPage (snd page) <> 0) pages ->
    Response.NextPage (snd final) = 0 ->
    mapM (fun page => filenames (fst page)) (pages ++ [final]) = Some names ->
    loop (length pages + 1 + extra) m prNumber opt files h =
      returned (h ++ map (list_files_call m prNumber)
                     (list_files_options opt (pages ++ [final])),
                (files ++ concat names, None)).
Proof.
  induction pages as [|page pages IH];
    intros final names extra opt files h Hans Hmore Hlast Hnames.
  - destruct Hans as [Hq _]. destruct final as [result response].
    cbn [app mapM fst snd] in *.
    destruct (filenames result) as [ns|] eqn:Hns; [|done].
    cbn in Hnames. injection Hnames as <-.
    cbn [length Nat.add loop ListModifiedFiles_loop]. unfold loop. cbn.
    rewrite Hq, (append_filenames_all _ _ _ Hns), Hlast. cbn.
    by rewrite !app_nil_r.
  - destruct Hans as [Hq Hrest]. apply Forall_cons in Hmore as [Hnext Hmore].
    destruct page as [result response]. cbn [fst snd] in *.
    rewrite <- app_comm_cons in Hnames. cbn [mapM fst] in Hnames.
    destruct (filenames result) as [ns|] eqn:Hns; [|done].
    destruct (mapM (fun page => filenames (fst page)) (pages ++ [final]))
      as [nss|] eqn:Hnss; [|done].
    cbn in Hnames. injection Hnames as <-.
    unfold loop. cbn [length Nat.add ListModifiedFiles_loop].
    rewrite Hq, (append_filenames_all _ _ _ Hns).
    destruct (Z.eqb_spec (Response.NextPage response) 0); [done|].
    fold loop. rewrite (IH final nss extra _ _ _ Hrest Hmore Hlast Hnss).
    cbn. by rewrite <- !app_assoc.
Qed.

(** X9: [ListModifiedFiles] follows the page numbers to the last page.
    When the REST client answers the successive calls with pages that each
    name a next page, and then with one whose next page is 0, and every
    file has a name, the call makes one request per page (100 per page;
    the first with page 0, each later one with the page the answer before
    named) and returns the names of all pages in order. *)
Theorem ListModifiedFiles_exhausts (m : GithubClient.t) (prNumber : Z)
    (h : list Event) (pages : list (list CommitFile.t * Response.t))
    (final : list CommitFile.t * Response.t) (names : list (list string))
    (extra : nat) :
  let first := {| ListOptions.Page := 0; ListOptions.PerPage := 100 |} in
  list_files_answers PullRequests_ListFiles m prNumber h first (pages ++ [final]) ->
  Forall (fun page => Response.NextPage (snd page) <> 0) pages ->
  Response.NextPage (snd final) = 0 ->
  mapM (fun page => filenames (fst page)) (pages ++ [final]) = Some names ->
  ListModifiedFiles PullRequests_ListFiles (length pages + 1 + extra) m prNumber h =
    returned (h ++ map (list_files_call m prNumber)
                   (list_files_options first (pages ++ [final])),
              (concat names, None)) /\
  Forall (fun opt => ListOptions.PerPage opt = 100)
    (list_files_options first (pages ++ [final])).
Proof.
  intros first Hans Hmore Hlast Hnames. split.
  - unfold ListModifiedFiles. fold first.
    exact (ListModifiedFiles_loop_exhausts m prNumber pages final names extra
             first [] h Hans Hmore Hlast Hnames).
  - clear. generalize (pages ++ [final]). intros l.
    assert (H : ListOptions.PerPage first = 100) by done.
    revert H. generalize first. induction l as [|page l IH]; intros opt Hopt;
      simpl; constructor; [done|]. by apply IH.
Qed.

(** X10: a file without a name on a fetched page makes
    [ListModifiedFiles] dereference nil: the call panics instead of
    returning, whatever the page says about a next page. *)
Theorem ListModifiedFiles_nameless_file (m : GithubClient.t) (prNumber : Z)
    (h : list Event) (result : list CommitFile.t) (response : Response.t)
    (fuel : nat) :
  PullRequests_ListFiles (GithubClient.V3 m) h (GithubClient.Owner m)
    (GithubClient.Repository m) prNumber
    {| ListOptions.Page := 0; ListOptions.PerPage := 100 |} = inr (result, response) ->
  Exists (fun f => CommitFile.Filename f = None) result ->
  ListModifiedFiles PullRequests_ListFiles (S fuel) m prNumber h = panicked.
Proof.
  intros Hq Hnil. unfold ListModifiedFiles. cbn [ListModifiedFiles_loop].
  rewrite Hq. by rewrite (append_filenames_nil _ _ (filenames_nameless _ Hnil)).
Qed.

Lemma ListModifiedFiles_loop_error m prNumber fuel :
  forall opt files h h' result err,
    loop fuel m prNumber opt files h = returned (h', (result, Some err)) ->
    result = [].
Proof.
  unfold loop.
  induction fuel as [|fuel IH]; intros opt files h h' result err; simpl; [done|].
  destruct (PullRequests_ListFiles _ _ _ _ _ _) as [e|[res response]].
  - by intros [= _ <- _].
  - destruct (append_filenames files res); [|done].
    destruct (Z.eqb _ 0); [done|]. apply IH.
Qed.

End RestFacts.

Lemma ListModifiedFiles_exhausts_example :
  ListModifiedFiles (Sample.list_files Sample.two_listings) 2 (Fixture.github []) 7 [] =
    returned
      ([list_files_call (Fixture.github []) 7
          {| ListOptions.Page := 0; ListOptions.PerPage := 100 |};
        list_files_call (Fixture.github []) 7
          {| ListOptions.Page := 2; ListOptions.PerPage := 100 |}],
       (["a.go"; "b.go"; "c.go"], None)).
Proof.
  refine (proj1 (ListModifiedFiles_exhausts (Sample.list_files Sample.two_listings)
                   (Fixture.github []) 7 []
                   [([Sample.file "a.go"; Sample.file "b.go"], {| Response.NextPage := 2 |})]
                   ([Sample.file "c.go"], {| Response.NextPage := 0 |})
                   [["a.go"; "b.go"]; ["c.go"]] 0 _ _ _ _)).
  - repeat split.
  - by repeat constructor.
  - reflexivity.
  - reflexivity.
Defined.

Lemma ListModifiedFiles_nameless_file_example :
  ListModifiedFiles (Sample.list_files Sample.nameless_listing) 3
    (Fixture.github []) 7 [] = panicked.
Proof.
  apply (ListModifiedFiles_nameless_file (Sample.list_files Sample.nameless_listing)
           (Fixture.github []) 7 []
           [Sample.file "a.go"; {| CommitFile.Filename := None |}]
           {| Response.NextPage := 0 |} 2).
  - reflexivity.
  - apply Exists_cons_tl, Exists_cons_hd. reflexivity.
Defined.

(** ** Results and errors *)

Lemma GetChangedFiles_loop_error m pr fuel :
  forall offset cfo h h' files err,
    GetChangedFiles_loop fuel m pr offset cfo h = Some (h', (files, Some err)) ->
    files = [].
Proof.
  induction fuel as [|fuel IH]; intros offset cfo h h' files err; simpl; [done|].
  destruct (V4Client.Query_files _ _ _) as [e|filequery].
  - by intros [= _ <- _].
  - destruct (PageInfo.HasNextPage _); simpl; [apply IH|done].
Qed.

Lemma SearchPullRequests_loop_error m fuel :
  forall vars response h h' result err,
    SearchPullRequests_loop fuel m vars response h = Some (h', (result, Some err)) ->
    result = [].
Proof.
  induction fuel as [|fuel IH]; intros vars response h h' result err; simpl; [done|].
  destruct (V4Client.Query_search _ _ _) as [e|page].
  - by intros [= _ <- _].
  - destruct (PageInfo.HasNextPage _); simpl; [apply IH|done].
Qed.

(** X11: the three paginated operations return no partial list next to an
    error: when a call ends with an error, on whichever page, the list it
    returns is nil. *)
Theorem paginated_error_without_list
    (PullRequests_ListFiles :
       V3Client.t -> list Event -> string -> string -> Z -> ListOptions.t ->
       string + (list CommitFile.t * Response.t))
    (m : GithubClient.t) (fuel : nat) :
  (forall prNumber commitRef h,
     match GetChangedFiles fuel m prNumber commitRef h with
     | Some (_, (files, Some _)) => files = []
     | _ => True
     end) /\
  (forall query limit h,
     match SearchPullRequests fuel m query limit h with
     | Some (_, (response, Some _)) => response = []
     | _ => True
     end) /\
  (forall prNumber h,
     match ListModifiedFiles PullRequests_ListFiles fuel m prNumber h with
     | returned (_, (files, Some _)) => files = []
     | _ => True
     end).
Proof.
  split; [|split].
  - intros prNumber commitRef h.
    destruct (GetChangedFiles fuel m prNumber commitRef h)
      as [[h' [files [err|]]]|] eqn:H; try done.
    unfold GetChangedFiles in H. destruct (Atoi prNumber) as [pr [e|]].
    + by injection H as _ <- _.
    + by apply GetChangedFiles_loop_error in H.
  - intros query limit h.
    destruct (SearchPullRequests fuel m query limit h)
      as [[h' [response [err|]]]|] eqn:H; try done.
    by apply SearchPullRequests_loop_error in H.
  - intros prNumber h.
    destruct (ListModifiedFiles PullRequests_ListFiles fuel m prNumber h)
      as [[h' [files [err|]]]| |] eqn:H; try done.
    by apply ListModifiedFiles_loop_error in H.
Qed.

(** A first page of two files, then a failing query: two calls, the error,
    and no files. *)
Lemma GetChangedFiles_fails_on_second_page :
  GetChangedFiles 2 Sample.flaky "7" "abc" [] =
    Some ([V4_Query file_query (files_vars Sample.flaky 7 "");
           V4_Query file_query (files_vars Sample.flaky 7 "f1")],
          ([], Some (library_error "502 Bad Gateway"))).
Proof. reflexivity. Qed.

Lemma scan_commits_found object commitRef edges p :
  scan_commits object commitRef edges = Some p ->
  PullRequest.PullRequestObject p = object /\
  In (PullRequest.Tip p) edges /\
  CommitObject.OID (PullRequest.Tip p) = commitRef /\
  PullRequest.ApprovedReviewCount p = 0 /\ PullRequest.Labels p = [].
Proof.
  induction edges as [|c edges IH]; simpl; [done|].
  destruct (String.eqb_spec (CommitObject.OID c) commitRef) as [Heq|_].
  - intros [= <-]. simpl. split; [done|]. split; [by left|]. by repeat split.
  - intros H. destruct (IH H) as (Ho & Hin & Hrest).
    split; [done|]. split; [by right|]. done.
Qed.

(** X12: [GetPullRequest] returns either a pull request or an error, never
    both and never neither.  A returned pull request carries the object of
    the query's answer and one of its commits as tip, the tip's OID is the
    requested ref, the review count is 0 and the labels are nil. *)
Theorem GetPullRequest_returned (m : GithubClient.t) (prNumber commitRef : string)
    (h h' : list Call) (result : option PullRequest.t) (err : option error) :
  GetPullRequest m prNumber commitRef h = (h', (result, err)) ->
  match result with
  | Some p =>
      err = None /\
      CommitObject.OID (PullRequest.Tip p) = commitRef /\
      PullRequest.ApprovedReviewCount p = 0 /\ PullRequest.Labels p = [] /\
      exists pr query,
        Atoi prNumber = (pr, None) /\
        V4Client.Query_pull_request (GithubClient.V4 m) h (pull_request_vars m pr)
          = inr query /\
        PullRequest.PullRequestObject p = PullRequestQuery.PullRequestObject query /\
        In (PullRequest.Tip p) (PullRequestQuery.Commits_Edges query)
  | None => err <> None
  end.
Proof.
  unfold GetPullRequest.
  destruct (Atoi prNumber) as [pr [e|]] eqn:Ha; [by intros [= _ <- <-]|].
  destruct (V4Client.Query_pull_request _ _ _) as [text|query] eqn:Hq;
    [by intros [= _ <- <-]|].
  destruct (scan_commits _ _ _) as [p|] eqn:Hscan; [|by intros [= _ <- <-]].
  intros [= _ <- <-].
  destruct (scan_commits_found _ _ _ _ Hscan) as (Ho & Hin & Hoid & Hc & Hl).
  repeat split; try done. by exists pr, query.
Qed.

Lemma GetPullRequest_returned_example :
  GetPullRequest (Fixture.github []) "7" "ccc" [] =
    ([V4_Query pull_request_query (pull_request_vars (Fixture.github []) 7)],
     (Some {| PullRequest.PullRequestObject := Fixture.object 7;
              PullRequest.Tip := Fixture.commit "ccc" "fourth";
              PullRequest.ApprovedReviewCount := 0;
              PullRequest.Labels := [] |}, None)) /\
  CommitObject.OID (Fixture.commit "ccc" "fourth") = "ccc".
Proof.
  split; [reflexivity|].
  exact (proj1 (proj2 (GetPullRequest_returned (Fixture.github []) "7" "ccc" [] _
                         (Some _) _ eq_refl))).
Defined.

(** X13: when the GraphQL query of [GetPullRequest] or of
    [DeletePreviousComments] fails, the call ends there: the query is the
    only call made (no retry, and no deletion), and the library's error is
    returned as it is. *)
Theorem query_error_ends_the_call (m : GithubClient.t) (prNumber : string)
    (pr : Z) (h : list Call) (text : string) :
  Atoi prNumber = (pr, None) ->
  (forall commitRef,
     V4Client.Query_pull_request (GithubClient.V4 m) h (pull_request_vars m pr)
       = inl text ->
     GetPullRequest m prNumber commitRef h =
       (h ++ [V4_Query pull_request_query (pull_request_vars m pr)],
        (None, Some (library_error text)))) /\
  (V4Client.Query_comments (GithubClient.V4 m) h (comments_vars m pr) = inl text ->
   DeletePreviousComments m prNumber h =
     (h ++ [V4_Query comments_query (comments_vars m pr)],
      Some (library_error text))).
Proof.
  intros Ha. split.
  - intros commitRef Hq. unfold GetPullRequest. by rewrite Ha, Hq.
  - intros Hq. unfold DeletePreviousComments. by rewrite Ha, Hq.
Qed.

Lemma query_error_ends_the_call_example :
  DeletePreviousComments Sample.down "7" [] =
    ([V4_Query comments_query (comments_vars Sample.down 7)],
     Some (library_error "502 Bad Gateway")).
Proof.
  exact (proj2 (query_error_ends_the_call Sample.down "7" 7 [] "502 Bad Gateway"
                  eq_refl) eq_refl).
Defined.

(** ** Construction: endpoints *)

Section EndpointFacts.

Variable url_Parse : string -> string + string.
Variable github_NewClient : HttpClient.t -> V3Client.t.
Variable github_NewEnterpriseClient :
  string -> string -> HttpClient.t -> string + V3Client.t.
Variable githubv4_NewClient : HttpClient.t -> V4Client.t.
Variable githubv4_NewEnterpriseClient : string -> HttpClient.t -> V4Client.t.

Let new := NewGithubClient url_Parse github_NewClient github_NewEnterpriseClient
             githubv4_NewClient githubv4_NewEnterpriseClient.

(** X14: [NewGithubClient] returns either a client or an error.  In a
    returned client, owner and name are the two parts of the repository
    identifier, and both API clients are built on an HTTP client that
    carries the Source's token and skips certificate verification exactly
    when the Source says so: the public constructors when the endpoint is
    empty, the enterprise ones on the parsed endpoint otherwise. *)
Theorem NewGithubClient_returned (s : Source.t) (result : option GithubClient.t)
    (err : option error) :
  new s = (result, err) ->
  match result with
  | Some m =>
      err = None /\
      parseRepository (Source.Repository s) =
        (GithubClient.Owner m, GithubClient.Repository m, None) /\
      let client :=
        {| HttpClient.AccessToken := Source.AccessToken s;
           HttpClient.InsecureSkipVerify := Source.SkipSSLVerification s |} in
      (if Str.is_empty (Source.V3Endpoint s)
       then GithubClient.V3 m = github_NewClient client
       else exists endpoint,
              url_Parse (Source.V3Endpoint s) = inr endpoint /\
              github_NewEnterpriseClient endpoint endpoint client
                = inr (GithubClient.V3 m)) /\
      (if Str.is_empty (Source.V4Endpoint s)
       then GithubClient.V4 m = githubv4_NewClient client
       else exists endpoint,
              url_Parse (Source.V4Endpoint s) = inr endpoint /\
              GithubClient.V4 m = githubv4_NewEnterpriseClient endpoint client)
  | None => err <> None
  end.
Proof.
  unfold new, NewGithubClient.
  destruct (parseRepository (Source.Repository s)) as [[owner name] [e|]];
    [by intros [= <- <-]|].
  destruct (Str.is_empty (Source.V3Endpoint s)); cbn [negb];
    destruct (Str.is_empty (Source.V4Endpoint s)); cbn [negb];
    repeat match goal with
           | |- context [url_Parse ?x] => destruct (url_Parse x) eqn:?
           | |- context [github_NewEnterpriseClient ?a ?b ?c] =>
               destruct (github_NewEnterpriseClient a b c) eqn:?
           end;
    intros [= <- <-]; try done; cbn; repeat split; eauto.
Qed.

(** X15: with a well-formed repository identifier, an endpoint override
    that does not parse ends the construction with the parse error under
    the endpoint's own message, the REST endpoint being looked at first;
    an error of the enterprise REST constructor is returned as it is. *)
Theorem NewGithubClient_endpoint_errors (s : Source.t) (owner name text : string) :
  parseRepository (Source.Repository s) = (owner, name, None) ->
  (Source.V3Endpoint s <> "" -> url_Parse (Source.V3Endpoint s) = inl text ->
   new s = (None, Some (fmt_Errorf "failed to parse v3 endpoint: %s"
                          (op_error (library_error text))))) /\
  (forall endpoint,
     Source.V3Endpoint s <> "" -> url_Parse (Source.V3Endpoint s) = inr endpoint ->
     github_NewEnterpriseClient endpoint endpoint
       {| HttpClient.AccessToken := Source.AccessToken s;
          HttpClient.InsecureSkipVerify := Source.SkipSSLVerification s |} = inl text ->
     new s = (None, Some (library_error text))) /\
  (Source.V3Endpoint s = "" -> Source.V4Endpoint s <> "" ->
   url_Parse (Source.V4Endpoint s) = inl text ->
   new s = (None, Some (fmt_Errorf "failed to parse v4 endpoint: %s"
                          (op_error (library_error text))))).
Proof.
  intros Hp. unfold new, NewGithubClient. rewrite Hp. split; [|split].
  - intros H3 Hu. apply StrFacts.is_empty_false in H3. by rewrite H3, Hu.
  - intros endpoint H3 Hu He. apply StrFacts.is_empty_false in H3.
    by rewrite H3, Hu, He.
  - intros H3 H4 Hu. apply StrFacts.is_empty_false in H4.
    by rewrite H3, H4, Hu.
Qed.

End EndpointFacts.

Lemma NewGithubClient_returned_example :
  let s := Fixture.source_with "token" "owner/name" "https://ghe.example.com/api/v3"
             "https://ghe.example.com/api/graphql" [] in
  exists m,
    Fixture.new_github s = (Some m, None) /\
    parseRepository (Source.Repository s) =
      (GithubClient.Owner m, GithubClient.Repository m, None).
Proof.
  intros s. eexists. split; [reflexivity|].
  exact (proj1 (proj2 (NewGithubClient_returned (fun endpoint => inr endpoint)
           (fun _ => Fixture.v3 []) (fun _ _ _ => inr (Fixture.v3 []))
           (fun _ => Fixture.v4 Fixture.two_search_pages Fixture.two_files_pages
                       Fixture.window Fixture.three_comments)
           (fun _ _ => Fixture.v4 Fixture.two_search_pages Fixture.two_files_pages
                         Fixture.window Fixture.three_comments)
           s (Some _) None eq_refl))).
Defined.

Lemma NewGithubClient_endpoint_errors_example :
  NewGithubClient (fun _ => inl "missing protocol scheme")
    (fun _ => Fixture.v3 []) (fun _ _ _ => inr (Fixture.v3 []))
    (fun _ => V4Client.Build_t (fun _ _ => inl "") (fun _ _ => inl "")
                (fun _ _ => inl "") (fun _ _ => inl ""))
    (fun _ _ => V4Client.Build_t (fun _ _ => inl "") (fun _ _ => inl "")
                  (fun _ _ => inl "") (fun _ _ => inl ""))
    (Fixture.source_with "token" "owner/name" ":v3" ":v4" []) =
  (None, Some (fmt_Errorf "failed to parse v3 endpoint: %s"
                 (op_error (library_error "missing protocol scheme")))).
Proof.
  refine (proj1 (NewGithubClient_endpoint_errors _ _ _ _ _
                   (Fixture.source_with "token" "owner/name" ":v3" ":v4" [])
                   "owner" "name" _ eq_refl) _ eq_refl).
  discriminate.
Defined.

(** ** SearchPullRequests on one page *)

Lemma length_flat_map {A B} (f : A -> list B) (l : list A) :
  length (flat_map f l) = list_sum (map (fun x => length (f x)) l).
Proof.
  induction l as [|x l IH]; [done|]. simpl. by rewrite length_app, IH.
Qed.

(** X16: when the first answer announces no next page, [SearchPullRequests]
    makes that one query and returns, node after node, one pull request
    per commit edge of the node, with the node's object and review count:
    as many pull requests as the page has commit edges, none for a node
    without one. *)
Theorem SearchPullRequests_one_page (m : GithubClient.t) (query : string)
    (limit : Z) (h : list Call) (page : SearchQuery.t) (fuel : nat) :
  V4Client.Query_search (GithubClient.V4 m) h (search_vars query limit) = inr page ->
  PageInfo.HasNextPage (SearchQuery.Search_PageInfo page) = false ->
  exists response,
    SearchPullRequests (S fuel) m query limit h =
      Some (h ++ [V4_Query search_query (search_vars query limit)], (response, None)) /\
    response =
      flat_map (fun p => map (search_emitted p) (SearchNode.Commits_Edges p))
        (SearchQuery.Search_Nodes page) /\
    length response =
      list_sum (map (fun p => length (SearchNode.Commits_Edges p))
                  (SearchQuery.Search_Nodes page)) /\
    search_vars query limit !! "searchQuery" = Some (githubv4_String query) /\
    search_vars query limit !! "searchFirst" = Some (githubv4_Int limit).
Proof.
  intros Hq Hlast. eexists. split; [by apply SearchPullRequests_single_page|].
  split; [done|]. split; [|by split].
  rewrite length_flat_map. f_equal. apply map_ext. intros p.
  apply length_map.
Qed.

Lemma SearchPullRequests_one_page_example :
  exists response,
    SearchPullRequests 1 Fixture.labelled "is:pr" 50 [] =
      Some ([V4_Query search_query (search_vars "is:pr" 50)], (response, None)) /\
    length response = 1%nat.
Proof.
  destruct (SearchPullRequests_one_page Fixture.labelled "is:pr" 50 []
              (Fixture.search_page 3 ["bug"; "wip"] "c3" false) 0 eq_refl eq_refl)
    as (response & Hrun & _ & Hlen & _).
  exists response. split; [exact Hrun|exact Hlen].
Defined.


